(** * SOLID examples (Python/Nivel4/Modulo_7): a shallow embedding

    The five scripts [srp_exemple.py], [ocp_example.py], [lsp_exemple.py],
    [isp_exemple.py] and [dip_example.py] are embedded one module per
    script and one inner module per class, so that the Rocq name of a
    method is the Python one ([Dip.UserService.get_user]).

    - A method is a computation in the monad [Py.M]: it reads and extends
      the text printed so far and either returns a value or raises.
    - An abstract base class whose implementations are passed to a
      consumer ([Database], [MessageSender], [PaymentProcessor],
      [Discount], [Notifier], [Shape]) is a record of methods; an
      implementation is a value of that record.
    - Assignments to [self] are explicit state passing: a mutator returns
      the new [self].
    - Where the question is which methods an object has (the birds of
      [lsp_exemple.py], the workers and printers of [isp_exemple.py]), a
      class is a table of functions with its bases, and calls go through
      attribute lookup ([Py.class], [Py.call], [Py.instantiate]).
    - Where the question is what a call does to the attributes of an
      object, the methods are written once more with [self] threaded
      through ([Py.stateful], modules [Srp_self], [Ocp_self], [Lsp_self],
      [Dip_self]).
    - Python [float]s are IEEE binary64 numbers ([PrimFloat.float]). *)

From Stdlib Require Import String Ascii List Bool ZArith Lia.
From Stdlib Require Import PrimFloat FloatOps SpecFloat.
From Stdlib Require DecimalString.
Import ListNotations.
Open Scope string_scope.

Set Warnings "-inexact-float,-register-all".

(** * The Python runtime the scripts use *)

Module Py.

(** An exception object: its class and its message. *)
Record exn : Type := mkExn { exn_class : string; exn_msg : string }.

Inductive result (A : Type) : Type :=
| Return (a : A)
| Raise (e : exn).
Arguments Return {A} a.
Arguments Raise {A} e.

(** The console: one entry per call of [print], oldest first (the
    newline that [print] appends is left implicit). *)
Definition stdout : Type := list string.

Definition M (A : Type) : Type := stdout -> result A * stdout.

Definition ret {A} (a : A) : M A := fun out => (Return a, out).

Definition bind {A B} (m : M A) (k : A -> M B) : M B :=
  fun out =>
    match m out with
    | (Return a, out') => k a out'
    | (Raise e, out') => (Raise e, out')
    end.

Definition raise {A} (e : exn) : M A := fun out => (Raise e, out).

Definition print (s : string) : M unit := fun out => (Return tt, (out ++ [s])%list).

Declare Scope py_scope.
Delimit Scope py_scope with py.
Notation "x <- c1 ;; c2" := (bind c1 (fun x => c2))
  (at level 61, c1 at next level, right associativity) : py_scope.
Notation "c1 ;; c2" := (bind c1 (fun _ => c2))
  (at level 61, right associativity) : py_scope.
Open Scope py_scope.

(** [for x in xs: body(x)] *)
Fixpoint for_each {A} (xs : list A) (body : A -> M unit) : M unit :=
  match xs with
  | [] => ret tt
  | x :: xs' => body x ;; for_each xs' body
  end.

(** The text a computation adds to the console, and its outcome. *)
Definition outcome {A} (r : result A * stdout) : result A := fst r.
Definition printed {A} (r : result A * stdout) : stdout := snd r.

Definition returns {A} (r : result A * stdout) : bool :=
  match fst r with Return _ => true | Raise _ => false end.

(** Whether a call returned the float [x]. *)
Definition returned_float (x : float) (r : result float * stdout) : bool :=
  match fst r with
  | Return a => PrimFloat.eqb a x
  | Raise _ => false
  end.

(** The characters a string literal writes as an escape. *)
Definition nl : string := String (ascii_of_nat 10) EmptyString.

(** ** [format(x, ".2f")] on a float

    The decimal expansion of the binary value rounded to two digits
    after the point, ties to even; the sign is printed for negative
    zero too. *)

Definition round_half_even (n d : Z) : Z :=
  let q := (n / d)%Z in
  let r := (n mod d)%Z in
  if (2 * r <? d)%Z then q
  else if (d <? 2 * r)%Z then (q + 1)%Z
  else if Z.even q then q else (q + 1)%Z.

Definition decimal (z : Z) : string :=
  DecimalString.NilZero.string_of_uint (N.to_uint (Z.to_N z)).

Definition two_digits (z : Z) : string :=
  if (z <? 10)%Z then "0" ++ decimal z else decimal z.

Definition format_2f (x : float) : string :=
  match Prim2SF x with
  | S754_nan => "nan"
  | S754_infinity s => if s then "-inf" else "inf"
  | S754_zero s => if s then "-0.00" else "0.00"
  | S754_finite s m e =>
      let hundredths :=
        if (0 <=? e)%Z then (Zpos m * 100 * 2 ^ e)%Z
        else round_half_even (Zpos m * 100) (2 ^ (- e)) in
      (if s then "-" else "")
        ++ decimal (hundredths / 100) ++ "." ++ two_digits (hundredths mod 100)
  end.

(** ** Classes, attribute lookup and instantiation

    Used where a claim is about which methods an object has.  Every
    attribute value, argument and result in the classes concerned is a
    [str] (or [None] for a result). *)

Definition dict : Type := list (string * string).

Fixpoint assoc {V : Type} (k : string) (l : list (string * V)) : option V :=
  match l with
  | [] => None
  | (k', v) :: l' => if k =? k' then Some v else assoc k l'
  end.

Definition setattr (self : dict) (a v : string) : dict :=
  (a, v) :: filter (fun kv => negb (fst kv =? a)) self.

Definition getattr (self : dict) (a : string) : M string :=
  match assoc a self with
  | Some v => ret v
  | None => raise (mkExn "AttributeError" ("object has no attribute '" ++ a ++ "'"))
  end.

(** A function defined in a class body: whether it is decorated with
    [@abstractmethod], the number of parameters after [self], and its
    body, from [self.__dict__] and the arguments to the new
    [self.__dict__] and the value returned. *)
Record method : Type := mkMethod {
  isabstractmethod : bool;
  arity : nat;
  body : dict -> list string -> M (dict * option string)
}.

Definition arity_error {A} : M A :=
  raise (mkExn "TypeError" "wrong number of arguments").

Definition def0 (f : dict -> M (dict * option string)) : method :=
  mkMethod false 0 (fun self args =>
    match args with [] => f self | _ => arity_error end).

Definition def1 (f : dict -> string -> M (dict * option string)) : method :=
  mkMethod false 1 (fun self args =>
    match args with [a] => f self a | _ => arity_error end).

Definition abstractmethod (f : method) : method :=
  mkMethod true (arity f) (body f).

(** [class name(bases): namespace]; [ABC] is the class of module [abc].
    A class without bases derives from [object], which defines none of
    the methods of the scripts. *)
Inductive class : Type :=
| ABC
| Class (name : string) (bases : list class) (namespace : list (string * method)).

Definition class_name (c : class) : string :=
  match c with ABC => "ABC" | Class name _ _ => name end.

(** Whether the metaclass is [ABCMeta]. *)
Fixpoint uses_abcmeta (c : class) : bool :=
  match c with
  | ABC => true
  | Class _ bases _ =>
      (fix any (bs : list class) : bool :=
         match bs with
         | [] => false
         | b :: bs' => uses_abcmeta b || any bs'
         end) bases
  end.

(** Attribute lookup on a class: its own namespace, then the bases from
    left to right, depth first.  The hierarchies of the scripts are
    single inheritance, or several bases that share only [ABC], where
    this is the order of Python's method resolution; it is not on a
    hierarchy where two bases share a class that defines the attribute,
    and no statement below is about such a hierarchy. *)
Fixpoint getattr_class (c : class) (m : string) : option method :=
  match c with
  | ABC => None
  | Class _ bases namespace =>
      match assoc m namespace with
      | Some f => Some f
      | None =>
          (fix first (bs : list class) : option method :=
             match bs with
             | [] => None
             | b :: bs' =>
                 match getattr_class b m with
                 | Some f => Some f
                 | None => first bs'
                 end
             end) bases
      end
  end.

Definition is_abstract_on (c : class) (m : string) : bool :=
  match getattr_class c m with
  | Some f => isabstractmethod f
  | None => false
  end.

(** [cls.__abstractmethods__] as [ABCMeta.__new__] computes it: the
    abstract functions of the namespace, and the abstract names of the
    bases that still resolve to an abstract function. *)
Fixpoint abstractmethods (c : class) : list string :=
  match c with
  | ABC => []
  | Class _ bases namespace =>
      if uses_abcmeta c then
        (map fst (filter (fun kv => isabstractmethod (snd kv)) namespace)
         ++ filter (is_abstract_on c)
              ((fix all (bs : list class) : list string :=
                  match bs with
                  | [] => []
                  | b :: bs' => abstractmethods b ++ all bs'
                  end) bases))%list
      else []
  end.

Record object : Type := mkObject { ob_type : class; ob_dict : dict }.

(** [self.m(args...)]: the object after the call and the value returned. *)
Definition call (self : object) (m : string) (args : list string)
  : M (object * option string) :=
  match getattr_class (ob_type self) m with
  | None =>
      raise (mkExn "AttributeError"
               ("'" ++ class_name (ob_type self) ++ "' object has no attribute '"
                    ++ m ++ "'"))
  | Some f =>
      if Nat.eqb (length args) (arity f) then
        r <- body f (ob_dict self) args ;;
        ret (mkObject (ob_type self) (fst r), snd r)
      else arity_error
  end.

(** The names of a set of strings in sorted order, as [sorted] lists the
    frozenset [__abstractmethods__]. *)
Fixpoint insert_sorted (s : string) (l : list string) : list string :=
  match l with
  | [] => [s]
  | x :: l' => if String.leb s x then s :: l else x :: insert_sorted s l'
  end.

Definition sorted (l : list string) : list string :=
  fold_right insert_sorted [] (nodup string_dec l).

(** The text of the [TypeError] for an abstract class, as CPython 3.11
    words it. *)
Definition abstract_class_message (c : class) : string :=
  "Can't instantiate abstract class " ++ class_name c ++ " with abstract method"
    ++ (match sorted (abstractmethods c) with _ :: _ :: _ => "s" | _ => "" end)
    ++ " " ++ String.concat ", " (sorted (abstractmethods c)).

(** [c(args...)], in the order of [object.__new__]: arguments are refused
    when the class has no [__init__], then a class with abstract methods
    is refused, then [__init__] runs if the class has one. *)
Definition instantiate (c : class) (args : list string) : M object :=
  match getattr_class c "__init__", args with
  | None, _ :: _ => raise (mkExn "TypeError" (class_name c ++ "() takes no arguments"))
  | init, _ =>
      match abstractmethods c with
      | _ :: _ => raise (mkExn "TypeError" (abstract_class_message c))
      | [] =>
          match init with
          | Some _ => r <- call (mkObject c []) "__init__" args ;; ret (fst r)
          | None => ret (mkObject c [])
          end
      end
  end.

(** What a method call leaves behind, whatever the class of the object:
    the attributes and the value returned, or the exception raised, and
    the console. *)
Definition observe (r : result (object * option string) * stdout)
  : result (dict * option string) * stdout :=
  (match fst r with
   | Return (self, v) => Return (ob_dict self, v)
   | Raise e => Raise e
   end, snd r).

(** ** Methods that may assign to [self]

    Used where the question is what a call does to the attributes of an
    object.  A method takes the attributes of [self] before the call and
    gives the value returned or the exception raised, the attributes
    after the call, and the console. *)

Definition stateful (S A : Type) : Type := S -> stdout -> result A * S * stdout.

Definition sret {S A} (a : A) : stateful S A := fun self out => (Return a, self, out).

Definition sbind {S A B} (m : stateful S A) (k : A -> stateful S B) : stateful S B :=
  fun self out =>
    match m self out with
    | (Return a, self', out') => k a self' out'
    | (Raise e, self', out') => (Raise e, self', out')
    end.

(** [self.attr] *)
Definition read {S A} (attr : S -> A) : stateful S A :=
  fun self out => (Return (attr self), self, out).

(** [self.attr = ...] (or [self.attr.append(...)]): [update] gives the
    attributes with the new value in place. *)
Definition assign {S} (update : S -> S) : stateful S unit :=
  fun self out => (Return tt, update self, out).

(** A statement in which [self] does not occur, such as [print(...)]. *)
Definition effect {S A} (m : M A) : stateful S A :=
  fun self out => match m out with (r, out') => (r, self, out') end.

Declare Scope self_scope.
Delimit Scope self_scope with self.
Notation "x <- c1 ;; c2" := (sbind c1 (fun x => c2))
  (at level 61, c1 at next level, right associativity) : self_scope.
Notation "c1 ;; c2" := (sbind c1 (fun _ => c2))
  (at level 61, right associativity) : self_scope.

(** An object seen through an interface [I]: its attributes, of a type
    of its own, and the methods of its class. *)
Record instance (I : Type -> Type) : Type :=
  new { attrs : Type; state : attrs; methods : I attrs }.
Arguments new {I} attrs state methods.
Arguments attrs {I} i.
Arguments state {I} i.
Arguments methods {I} i.

(** A class that defines no attribute. *)
Inductive no_attributes : Type := empty_dict.

Definition stateless {I : Type -> Type} (class_methods : I no_attributes) : instance I :=
  new no_attributes empty_dict class_methods.

(** [o.m(...)]: the method runs on the attributes of [o], and [o] has
    the attributes it leaves. *)
Definition invoke {I : Type -> Type} {A : Type} (m : forall S, I S -> stateful S A)
  : stateful (instance I) A :=
  fun o out =>
    match m (attrs o) (methods o) (state o) out with
    | (r, state', out') => (r, new (attrs o) state' (methods o), out')
    end.

(** [self.attr.m(...)], where [call] is the call on the object held in
    the attribute: what the call does to that object is seen in the
    attribute afterwards. *)
Definition on_attribute {S T A} (get : S -> T) (set : S -> T -> S) (call : stateful T A)
  : stateful S A :=
  fun self out =>
    match call (get self) out with
    | (r, held, out') => (r, set self held, out')
    end.

(** [arg.m(...)] on an object received as an argument. *)
Definition on_argument {S T A} (call : stateful T A) (arg : T) : stateful S A :=
  fun self out =>
    match call arg out with
    | (r, _, out') => (r, self, out')
    end.

(** [for x in xs: x.m(...)] on a list of objects: the loop stops at the
    first call that raises. *)
Fixpoint on_each {T} (call : stateful T unit) : stateful (list T) unit :=
  fun xs out =>
    match xs with
    | [] => (Return tt, [], out)
    | x :: xs' =>
        match call x out with
        | (Return _, x', out') =>
            match on_each call xs' out' with
            | (r, xs'', out'') => (r, x' :: xs'', out'')
            end
        | (Raise e, x', out') => (Raise e, x' :: xs', out')
        end
    end.

(** The attributes after a call, and the calls that leave [self] as it
    was, however they end. *)
Definition self_after {S A} (r : result A * S * stdout) : S := snd (fst r).

Definition unchanged_by {S A} (m : stateful S A) (self : S) : Prop :=
  forall out : stdout, self_after (m self out) = self.

(** What the caller sees of such a call: the outcome and the console. *)
Definition seen {S A} (r : result A * S * stdout) : result A * stdout :=
  (fst (fst r), snd r).

End Py.

Import Py.
Open Scope py_scope.

(** * srp_exemple.py *)

Module Srp.

Module UserManagerBad.
Record t : Type := mk { name : string; email : string }.

Definition __init__ (name email : string) : t := mk name email.

Definition save_to_database (self : t) : M unit :=
  print ("Salvando usuário " ++ name self ++ " no banco de dados...").

Definition send_welcome_email (self : t) : M unit :=
  print ("Enviando e-mail de boas-vindas para " ++ email self ++ "...").

Definition generate_report (self : t) : M unit :=
  print ("Gerando relatório para " ++ name self ++ "...").
End UserManagerBad.

Module User.
Record t : Type := mk { name : string; email : string }.

Definition __init__ (name email : string) : t := mk name email.

Definition get_info (self : t) : M (list (string * string)) :=
  ret [("name", name self); ("email", email self)].
End User.

Module UserRepository.
(** The class has no attribute. *)
Record t : Type := mk { }.

Definition __init__ : t := mk.

Definition save (self : t) (user : User.t) : M unit :=
  print ("✓ Salvando usuário " ++ User.name user ++ " no banco de dados...").

(** [return None]: the result is an optional [User]. *)
Definition find_by_email (self : t) (email : string) : M (option User.t) :=
  print ("✓ Buscando usuário com e-mail " ++ email ++ "...") ;;
  ret None.
End UserRepository.

Module EmailService.
Record t : Type := mk { }.

Definition __init__ : t := mk.

Definition send_welcome_email (self : t) (user : User.t) : M unit :=
  print ("✓ Enviando e-mail de boas-vindas para " ++ User.email user ++ "...").

Definition send_notification (self : t) (user : User.t) (message : string) : M unit :=
  print ("✓ Enviando notificação para " ++ User.email user ++ ": " ++ message).
End EmailService.

Module ReportGenerator.
Record t : Type := mk { }.

Definition __init__ : t := mk.

(** The triple-quoted text keeps its line breaks and the eight blanks
    that indent each line in the script. *)
Definition generate_user_report (self : t) (user : User.t) : M string :=
  print ("✓ Gerando relatório para " ++ User.name user ++ "...") ;;
  ret (nl ++ "        === RELATÓRIO DO USUÁRIO ===" ++ nl
          ++ "        Nome: " ++ User.name user ++ nl
          ++ "        E-mail: " ++ User.email user ++ nl
          ++ "        ===========================" ++ nl
          ++ "        ").
End ReportGenerator.

End Srp.

(** * ocp_example.py *)

Module Ocp.

Module DiscountCalculatorBad.
Record t : Type := mk { }.

Definition __init__ : t := mk.

Definition calculate_discount (self : t) (customer_type : string) (price : float)
  : M float :=
  if customer_type =? "regular" then ret (price * 0.0)%float
  else if customer_type =? "premium" then ret (price * 0.10)%float
  else if customer_type =? "vip" then ret (price * 0.20)%float
  else if customer_type =? "employee" then ret (price * 0.30)%float
  else ret 0.0%float.
End DiscountCalculatorBad.

(** [class Discount(ABC)]: one abstract method. *)
Module Discount.
Record t : Type := mk { calculate : float -> M float }.
End Discount.

Definition NoDiscount : Discount.t :=
  {| Discount.calculate := fun price => ret 0.0%float |}.

Definition RegularDiscount : Discount.t :=
  {| Discount.calculate := fun price => ret (price * 0.05)%float |}.

Definition PremiumDiscount : Discount.t :=
  {| Discount.calculate := fun price => ret (price * 0.10)%float |}.

Definition VIPDiscount : Discount.t :=
  {| Discount.calculate := fun price => ret (price * 0.20)%float |}.

Definition EmployeeDiscount : Discount.t :=
  {| Discount.calculate := fun price => ret (price * 0.30)%float |}.

Definition SeasonalDiscount : Discount.t :=
  {| Discount.calculate := fun price => ret (price * 0.15)%float |}.

Module DiscountCalculator.
Record t : Type := mk { }.

Definition __init__ : t := mk.

Definition calculate_final_price (self : t) (price : float) (discount : Discount.t)
  : M float :=
  discount_amount <- Discount.calculate discount price ;;
  ret (price - discount_amount)%float.
End DiscountCalculator.

(** [class Notifier(ABC)] *)
Module Notifier.
Record t : Type := mk { send : string -> M unit }.
End Notifier.

Definition EmailNotifier : Notifier.t :=
  {| Notifier.send := fun message => print ("📧 Enviando e-mail: " ++ message) |}.

Definition SMSNotifier : Notifier.t :=
  {| Notifier.send := fun message => print ("📱 Enviando SMS: " ++ message) |}.

Definition PushNotifier : Notifier.t :=
  {| Notifier.send := fun message => print ("🔔 Enviando notificação push: " ++ message) |}.

Definition WhatsAppNotifier : Notifier.t :=
  {| Notifier.send := fun message => print ("💬 Enviando WhatsApp: " ++ message) |}.

Module NotificationService.
Record t : Type := mk { notifiers : list Notifier.t }.

Definition __init__ : t := mk [].

(** [self.notifiers.append(notifier)]: the new [self]. *)
Definition add_notifier (self : t) (notifier : Notifier.t) : t :=
  mk (notifiers self ++ [notifier])%list.

Definition notify_all (self : t) (message : string) : M unit :=
  for_each (notifiers self) (fun notifier => Notifier.send notifier message).

End NotificationService.

End Ocp.

(** * lsp_exemple.py *)

Module Lsp.

(** ** The birds that break the base contract *)

Definition Bird : class :=
  Class "Bird" []
    [("__init__", def1 (fun self name => ret (setattr self "name" name, None)));
     ("fly", def0 (fun self =>
        name <- getattr self "name" ;;
        print (name ++ " está voando!") ;;
        ret (self, None)))].

Definition Sparrow : class := Class "Sparrow" [Bird] [].

Definition Penguin : class :=
  Class "Penguin" [Bird]
    [("fly", def0 (fun self =>
        name <- getattr self "name" ;;
        raise (mkExn "Exception" (name ++ " não pode voar! Pinguins não voam!"))))].

Definition Ostrich : class :=
  Class "Ostrich" [Bird]
    [("fly", def0 (fun self =>
        name <- getattr self "name" ;;
        raise (mkExn "Exception" (name ++ " não pode voar! Avestruzes não voam!"))))].

(** ** The corrected birds *)

Definition BirdCorrect : class :=
  Class "BirdCorrect" []
    [("__init__", def1 (fun self name => ret (setattr self "name" name, None)));
     ("eat", def0 (fun self =>
        name <- getattr self "name" ;;
        print (name ++ " está comendo.") ;;
        ret (self, None)));
     ("make_sound", def0 (fun self =>
        name <- getattr self "name" ;;
        print (name ++ " está fazendo som.") ;;
        ret (self, None)))].

Definition FlyingBird : class :=
  Class "FlyingBird" [BirdCorrect]
    [("fly", def0 (fun self =>
        name <- getattr self "name" ;;
        print (name ++ " está voando!") ;;
        ret (self, None)))].

Definition NonFlyingBird : class :=
  Class "NonFlyingBird" [BirdCorrect]
    [("walk", def0 (fun self =>
        name <- getattr self "name" ;;
        print (name ++ " está andando.") ;;
        ret (self, None)))].

Definition SparrowCorrect : class := Class "SparrowCorrect" [FlyingBird] [].

Definition EagleCorrect : class := Class "EagleCorrect" [FlyingBird] [].

Definition PenguinCorrect : class :=
  Class "PenguinCorrect" [NonFlyingBird]
    [("swim", def0 (fun self =>
        name <- getattr self "name" ;;
        print (name ++ " está nadando!") ;;
        ret (self, None)))].

Definition OstrichCorrect : class :=
  Class "OstrichCorrect" [NonFlyingBird]
    [("run_fast", def0 (fun self =>
        name <- getattr self "name" ;;
        print (name ++ " está correndo muito rápido!") ;;
        ret (self, None)))].

(** ** The square that is a rectangle *)

Module Rectangle.
Record t : Type := mk { _width : float; _height : float }.

Definition __init__ (width height : float) : t := mk width height.

(** [Rectangle(args...)]: [__init__] has two parameters after [self]. *)
Definition new (args : list float) : M t :=
  match args with
  | [width; height] => ret (__init__ width height)
  | _ => arity_error
  end.

Definition set_width (self : t) (width : float) : t := mk width (_height self).

Definition set_height (self : t) (height : float) : t := mk (_width self) height.

Definition get_area (self : t) : M float := ret (_width self * _height self)%float.
End Rectangle.

(** [class Square(Rectangle)]: the attributes, [__init__] and [get_area]
    are the inherited ones; the two setters are overridden. *)
Module Square.
Definition t : Type := Rectangle.t.

Definition __init__ : float -> float -> t := Rectangle.__init__.

Definition new : list float -> M t := Rectangle.new.

Definition set_width (self : t) (width : float) : t := Rectangle.mk width width.

Definition set_height (self : t) (height : float) : t := Rectangle.mk height height.

Definition get_area : t -> M float := Rectangle.get_area.
End Square.

(** ** The corrected shapes *)

(** [class Shape(ABC)] *)
Module Shape.
Record t : Type := mk { get_area : M float }.
End Shape.

Module RectangleCorrect.
Record t : Type := mk { _width : float; _height : float }.

Definition __init__ (width height : float) : t := mk width height.

Definition set_width (self : t) (width : float) : t := mk width (_height self).

Definition set_height (self : t) (height : float) : t := mk (_width self) height.

Definition get_area (self : t) : M float :=
  ret (_width self * _height self)%float.

(** The object seen through the interface. *)
Definition as_Shape (self : t) : Shape.t := {| Shape.get_area := get_area self |}.

End RectangleCorrect.

Module SquareCorrect.
Record t : Type := mk { _side : float }.

Definition __init__ (side : float) : t := mk side.

Definition set_side (self : t) (side : float) : t := mk side.

Definition get_area (self : t) : M float := ret (_side self * _side self)%float.

Definition as_Shape (self : t) : Shape.t := {| Shape.get_area := get_area self |}.

End SquareCorrect.

(** The three classes the corrected birds derive from. *)
Definition corrected_bases : list class := [BirdCorrect; FlyingBird; NonFlyingBird].

(** The concrete classes of the corrected bird hierarchy; each is
    constructed with a name. *)
Definition corrected : list class :=
  [SparrowCorrect; EagleCorrect; PenguinCorrect; OstrichCorrect].

End Lsp.

(** * isp_exemple.py *)

Module Isp.

(** The body [pass]. *)
Definition pass0 : method := def0 (fun self => ret (self, None)).
Definition pass1 : method := def1 (fun self _ => ret (self, None)).

(** ** One wide interface *)

Definition Worker : class :=
  Class "Worker" [ABC]
    [("work", abstractmethod pass0);
     ("eat", abstractmethod pass0);
     ("sleep", abstractmethod pass0)].

Definition HumanWorker : class :=
  Class "HumanWorker" [Worker]
    [("work", def0 (fun self => print "👷 Humano trabalhando..." ;; ret (self, None)));
     ("eat", def0 (fun self => print "🍽️  Humano comendo..." ;; ret (self, None)));
     ("sleep", def0 (fun self => print "😴 Humano dormindo..." ;; ret (self, None)))].

Definition RobotWorker : class :=
  Class "RobotWorker" [Worker]
    [("work", def0 (fun self => print "🤖 Robô trabalhando..." ;; ret (self, None)));
     ("eat", def0 (fun self => raise (mkExn "NotImplementedError" "Robôs não comem!")));
     ("sleep", def0 (fun self =>
        raise (mkExn "NotImplementedError" "Robôs não dormem!")))].

(** ** Segregated interfaces *)

Definition Workable : class := Class "Workable" [ABC] [("work", abstractmethod pass0)].

Definition Eatable : class := Class "Eatable" [ABC] [("eat", abstractmethod pass0)].

Definition Sleepable : class := Class "Sleepable" [ABC] [("sleep", abstractmethod pass0)].

Definition HumanWorkerCorrect : class :=
  Class "HumanWorkerCorrect" [Workable; Eatable; Sleepable]
    [("work", def0 (fun self => print "👷 Humano trabalhando..." ;; ret (self, None)));
     ("eat", def0 (fun self => print "🍽️  Humano comendo..." ;; ret (self, None)));
     ("sleep", def0 (fun self => print "😴 Humano dormindo..." ;; ret (self, None)))].

Definition RobotWorkerCorrect : class :=
  Class "RobotWorkerCorrect" [Workable]
    [("work", def0 (fun self =>
        print "🤖 Robô trabalhando 24/7..." ;; ret (self, None)))].

(** ** Printers: one wide interface *)

Definition MultiFunctionPrinter : class :=
  Class "MultiFunctionPrinter" [ABC]
    [("print_document", abstractmethod pass1);
     ("scan_document", abstractmethod pass0);
     ("fax_document", abstractmethod pass1);
     ("photocopy_document", abstractmethod pass1)].

Definition ModernPrinter : class :=
  Class "ModernPrinter" [MultiFunctionPrinter]
    [("print_document", def1 (fun self document =>
        print ("🖨️  Imprimindo: " ++ document) ;; ret (self, None)));
     ("scan_document", def0 (fun self =>
        print "📷 Escaneando documento..." ;;
        ret (self, Some "documento_escaneado.pdf")));
     ("fax_document", def1 (fun self document =>
        print ("📠 Enviando fax: " ++ document) ;; ret (self, None)));
     ("photocopy_document", def1 (fun self document =>
        print ("📋 Fazendo fotocópia: " ++ document) ;; ret (self, None)))].

Definition SimplePrinter : class :=
  Class "SimplePrinter" [MultiFunctionPrinter]
    [("print_document", def1 (fun self document =>
        print ("🖨️  Imprimindo: " ++ document) ;; ret (self, None)));
     ("scan_document", def0 (fun self =>
        raise (mkExn "NotImplementedError" "Esta impressora não escaneia!")));
     ("fax_document", def1 (fun self document =>
        raise (mkExn "NotImplementedError" "Esta impressora não envia fax!")));
     ("photocopy_document", def1 (fun self document =>
        raise (mkExn "NotImplementedError" "Esta impressora não faz fotocópias!")))].

(** ** Printers: segregated interfaces *)

Definition Printer : class :=
  Class "Printer" [ABC] [("print_document", abstractmethod pass1)].

Definition Scanner : class :=
  Class "Scanner" [ABC] [("scan_document", abstractmethod pass0)].

Definition Fax : class := Class "Fax" [ABC] [("fax_document", abstractmethod pass1)].

Definition Photocopier : class :=
  Class "Photocopier" [ABC] [("photocopy_document", abstractmethod pass1)].

Definition SimplePrinterCorrect : class :=
  Class "SimplePrinterCorrect" [Printer]
    [("print_document", def1 (fun self document =>
        print ("🖨️  Imprimindo: " ++ document) ;; ret (self, None)))].

Definition ModernPrinterCorrect : class :=
  Class "ModernPrinterCorrect" [Printer; Scanner; Fax; Photocopier]
    [("print_document", def1 (fun self document =>
        print ("🖨️  Imprimindo: " ++ document) ;; ret (self, None)));
     ("scan_document", def0 (fun self =>
        print "📷 Escaneando documento..." ;;
        ret (self, Some "documento_escaneado.pdf")));
     ("fax_document", def1 (fun self document =>
        print ("📠 Enviando fax: " ++ document) ;; ret (self, None)));
     ("photocopy_document", def1 (fun self document =>
        print ("📋 Fazendo fotocópia: " ++ document) ;; ret (self, None)))].

Definition ScannerPrinter : class :=
  Class "ScannerPrinter" [Printer; Scanner]
    [("print_document", def1 (fun self document =>
        print ("🖨️  Imprimindo: " ++ document) ;; ret (self, None)));
     ("scan_document", def0 (fun self =>
        print "📷 Escaneando documento..." ;;
        ret (self, Some "documento_escaneado.pdf")))].

(** The classes of the script that declare abstract methods. *)
Definition interfaces : list class :=
  [Worker; Workable; Eatable; Sleepable;
   MultiFunctionPrinter; Printer; Scanner; Fax; Photocopier].

(** The classes of the script that implement every method they inherit,
    the two that raise from some of them included. *)
Definition concrete : list class :=
  [HumanWorker; RobotWorker; HumanWorkerCorrect; RobotWorkerCorrect;
   ModernPrinter; SimplePrinter; SimplePrinterCorrect; ModernPrinterCorrect;
   ScannerPrinter].

(** The segregated interfaces, each with its one abstract operation. *)
Definition capabilities : list (class * string) :=
  [(Workable, "work"); (Eatable, "eat"); (Sleepable, "sleep");
   (Printer, "print_document"); (Scanner, "scan_document");
   (Fax, "fax_document"); (Photocopier, "photocopy_document")].

(** The concrete classes of the segregated designs; each is constructed
    without argument. *)
Definition corrected : list class :=
  [HumanWorkerCorrect; RobotWorkerCorrect;
   SimplePrinterCorrect; ModernPrinterCorrect; ScannerPrinter].

End Isp.

(** * dip_example.py *)

Module Dip.

(** ** The service that builds its own database *)

Module MySQLDatabase.
Record t : Type := mk { }.

Definition __init__ : t := mk.

Definition connect (self : t) : M unit := print "🔌 Conectando ao MySQL...".

Definition save_data (self : t) (data : string) : M unit :=
  print ("💾 Salvando no MySQL: " ++ data).
End MySQLDatabase.

Module UserServiceBad.
Record t : Type := mk { database : MySQLDatabase.t }.

Definition __init__ : t := mk MySQLDatabase.__init__.

Definition save_user (self : t) (user : string) : M unit :=
  MySQLDatabase.connect (database self) ;;
  MySQLDatabase.save_data (database self) user.
End UserServiceBad.

(** ** The services that receive their dependency *)

(** [class Database(ABC)] *)
Module Database.
Record t : Type := mk {
  connect : M unit;
  save_data : string -> M unit;
  get_data : string -> M string
}.
End Database.

Definition MySQLDatabaseCorrect : Database.t :=
  {| Database.connect := print "🔌 Conectando ao MySQL...";
     Database.save_data := fun data => print ("💾 Salvando no MySQL: " ++ data);
     Database.get_data := fun id =>
       print ("📖 Buscando no MySQL: ID " ++ id) ;;
       ret ("Dados do MySQL (ID: " ++ id ++ ")") |}.

Definition PostgreSQLDatabase : Database.t :=
  {| Database.connect := print "🔌 Conectando ao PostgreSQL...";
     Database.save_data := fun data => print ("💾 Salvando no PostgreSQL: " ++ data);
     Database.get_data := fun id =>
       print ("📖 Buscando no PostgreSQL: ID " ++ id) ;;
       ret ("Dados do PostgreSQL (ID: " ++ id ++ ")") |}.

Definition MongoDBDatabase : Database.t :=
  {| Database.connect := print "🔌 Conectando ao MongoDB...";
     Database.save_data := fun data => print ("💾 Salvando no MongoDB: " ++ data);
     Database.get_data := fun id =>
       print ("📖 Buscando no MongoDB: ID " ++ id) ;;
       ret ("Dados do MongoDB (ID: " ++ id ++ ")") |}.

Module UserService.
Record t : Type := mk { database : Database.t }.

Definition __init__ (database : Database.t) : t := mk database.

Definition save_user (self : t) (user : string) : M unit :=
  Database.connect (database self) ;;
  Database.save_data (database self) user.

Definition get_user (self : t) (id : string) : M string :=
  Database.get_data (database self) id.
End UserService.

(** The implementations of [Database] the script defines. *)
Definition Database_subclasses : list Database.t :=
  [MySQLDatabaseCorrect; PostgreSQLDatabase; MongoDBDatabase].

Module EmailSenderBad.
Record t : Type := mk { }.

Definition __init__ : t := mk.

Definition send_email (self : t) (message : string) : M unit :=
  print ("📧 Enviando e-mail: " ++ message).
End EmailSenderBad.

Module NotificationServiceBad.
Record t : Type := mk { email_sender : EmailSenderBad.t }.

Definition __init__ : t := mk EmailSenderBad.__init__.

Definition notify (self : t) (message : string) : M unit :=
  EmailSenderBad.send_email (email_sender self) message.
End NotificationServiceBad.

(** [class MessageSender(ABC)] *)
Module MessageSender.
Record t : Type := mk { send : string -> M unit }.
End MessageSender.

Definition EmailSender : MessageSender.t :=
  {| MessageSender.send := fun message => print ("📧 Enviando e-mail: " ++ message) |}.

Definition SMSSender : MessageSender.t :=
  {| MessageSender.send := fun message => print ("📱 Enviando SMS: " ++ message) |}.

Definition PushNotificationSender : MessageSender.t :=
  {| MessageSender.send := fun message =>
       print ("🔔 Enviando notificação push: " ++ message) |}.

Module NotificationService.
Record t : Type := mk { senders : list MessageSender.t }.

Definition __init__ (senders : list MessageSender.t) : t := mk senders.

Definition notify (self : t) (message : string) : M unit :=
  for_each (senders self) (fun sender => MessageSender.send sender message).
End NotificationService.

(** [class PaymentProcessor(ABC)] *)
Module PaymentProcessor.
Record t : Type := mk { process_payment : float -> M bool }.
End PaymentProcessor.

Definition CreditCardProcessor : PaymentProcessor.t :=
  {| PaymentProcessor.process_payment := fun amount =>
       print ("💳 Processando pagamento de R$ " ++ format_2f amount
                ++ " via Cartão de Crédito") ;;
       ret true |}.

Definition PayPalProcessor : PaymentProcessor.t :=
  {| PaymentProcessor.process_payment := fun amount =>
       print ("💰 Processando pagamento de R$ " ++ format_2f amount ++ " via PayPal") ;;
       ret true |}.

Definition PixProcessor : PaymentProcessor.t :=
  {| PaymentProcessor.process_payment := fun amount =>
       print ("⚡ Processando pagamento de R$ " ++ format_2f amount ++ " via PIX") ;;
       ret true |}.

(** The implementations of [PaymentProcessor] the script defines. *)
Definition PaymentProcessor_subclasses : list PaymentProcessor.t :=
  [CreditCardProcessor; PayPalProcessor; PixProcessor].

Module OrderService.
Record t : Type := mk { payment_processor : PaymentProcessor.t }.

Definition __init__ (payment_processor : PaymentProcessor.t) : t :=
  mk payment_processor.

Definition create_order (self : t) (amount : float) : M unit :=
  print (nl ++ "🛒 Criando pedido de R$ " ++ format_2f amount ++ "...") ;;
  success <- PaymentProcessor.process_payment (payment_processor self) amount ;;
  if success : bool
  then print "✓ Pedido criado com sucesso!"
  else print "❌ Falha ao processar pagamento!".
End OrderService.

End Dip.


(** * The corrected classes with [self] threaded through

    The same methods, from the same lines of the scripts, written as
    [stateful] computations: every statement that reads or assigns an
    attribute says so, and a provider held in an attribute is an
    [instance] with attributes of its own. *)

(** ** srp_exemple.py *)

Module Srp_self.
Local Open Scope self_scope.

Module User.
Definition get_info : stateful Srp.User.t (list (string * string)) :=
  name <- read Srp.User.name ;;
  email <- read Srp.User.email ;;
  sret [("name", name); ("email", email)].
End User.

Module UserRepository.
Definition save (user : Srp.User.t) : stateful Srp.UserRepository.t unit :=
  effect (print ("✓ Salvando usuário " ++ Srp.User.name user ++ " no banco de dados...")).

Definition find_by_email (email : string)
  : stateful Srp.UserRepository.t (option Srp.User.t) :=
  effect (print ("✓ Buscando usuário com e-mail " ++ email ++ "...")) ;;
  sret None.
End UserRepository.

Module EmailService.
Definition send_welcome_email (user : Srp.User.t) : stateful Srp.EmailService.t unit :=
  effect (print ("✓ Enviando e-mail de boas-vindas para " ++ Srp.User.email user ++ "...")).

Definition send_notification (user : Srp.User.t) (message : string)
  : stateful Srp.EmailService.t unit :=
  effect (print ("✓ Enviando notificação para " ++ Srp.User.email user ++ ": " ++ message)).
End EmailService.

Module ReportGenerator.
Definition generate_user_report (user : Srp.User.t)
  : stateful Srp.ReportGenerator.t string :=
  effect (print ("✓ Gerando relatório para " ++ Srp.User.name user ++ "...")) ;;
  sret (nl ++ "        === RELATÓRIO DO USUÁRIO ===" ++ nl
           ++ "        Nome: " ++ Srp.User.name user ++ nl
           ++ "        E-mail: " ++ Srp.User.email user ++ nl
           ++ "        ===========================" ++ nl
           ++ "        ")%string.
End ReportGenerator.

End Srp_self.

(** ** ocp_example.py *)

Module Ocp_self.
Local Open Scope self_scope.

(** [class Discount(ABC)] *)
Module Discount.
Record methods (S : Type) : Type := mk { calculate : float -> stateful S float }.
Arguments mk {S} calculate.
Arguments calculate {S} m price.

(** An object whose [calculate] leaves it as it was. *)
Definition immutable (o : instance methods) : Prop :=
  forall price : float, unchanged_by (invoke (fun S class => calculate class price)) o.
End Discount.

Definition NoDiscount : instance Discount.methods :=
  stateless (Discount.mk (fun price => sret 0.0%float)).

Definition RegularDiscount : instance Discount.methods :=
  stateless (Discount.mk (fun price => sret (price * 0.05)%float)).

Definition PremiumDiscount : instance Discount.methods :=
  stateless (Discount.mk (fun price => sret (price * 0.10)%float)).

Definition VIPDiscount : instance Discount.methods :=
  stateless (Discount.mk (fun price => sret (price * 0.20)%float)).

Definition EmployeeDiscount : instance Discount.methods :=
  stateless (Discount.mk (fun price => sret (price * 0.30)%float)).

Definition SeasonalDiscount : instance Discount.methods :=
  stateless (Discount.mk (fun price => sret (price * 0.15)%float)).

Definition Discount_subclasses : list (instance Discount.methods) :=
  [NoDiscount; RegularDiscount; PremiumDiscount; VIPDiscount; EmployeeDiscount;
   SeasonalDiscount].

Module DiscountCalculator.
Definition calculate_final_price (price : float) (discount : instance Discount.methods)
  : stateful Ocp.DiscountCalculator.t float :=
  discount_amount <-
    on_argument (invoke (fun S class => Discount.calculate class price)) discount ;;
  sret (price - discount_amount)%float.
End DiscountCalculator.

(** [class Notifier(ABC)] *)
Module Notifier.
Record methods (S : Type) : Type := mk { send : string -> stateful S unit }.
Arguments mk {S} send.
Arguments send {S} m message.

Definition immutable (o : instance methods) : Prop :=
  forall message : string, unchanged_by (invoke (fun S class => send class message)) o.
End Notifier.

Definition EmailNotifier : instance Notifier.methods :=
  stateless (Notifier.mk (fun message => effect (print ("📧 Enviando e-mail: " ++ message)))).

Definition SMSNotifier : instance Notifier.methods :=
  stateless (Notifier.mk (fun message => effect (print ("📱 Enviando SMS: " ++ message)))).

Definition PushNotifier : instance Notifier.methods :=
  stateless (Notifier.mk (fun message =>
    effect (print ("🔔 Enviando notificação push: " ++ message)))).

Definition WhatsAppNotifier : instance Notifier.methods :=
  stateless (Notifier.mk (fun message =>
    effect (print ("💬 Enviando WhatsApp: " ++ message)))).

Definition Notifier_subclasses : list (instance Notifier.methods) :=
  [EmailNotifier; SMSNotifier; PushNotifier; WhatsAppNotifier].

Module NotificationService.
Record t : Type := mk { notifiers : list (instance Notifier.methods) }.

Definition __init__ : t := mk [].

Definition add_notifier (notifier : instance Notifier.methods) : stateful t unit :=
  assign (fun self => mk (notifiers self ++ [notifier])).

Definition notify_all (message : string) : stateful t unit :=
  on_attribute notifiers (fun _ held => mk held)
    (on_each (invoke (fun S class => Notifier.send class message))).
End NotificationService.

End Ocp_self.

(** ** lsp_exemple.py: the corrected shapes *)

Module Lsp_self.
Local Open Scope self_scope.

Module RectangleCorrect.
Definition set_width (width : float) : stateful Lsp.RectangleCorrect.t unit :=
  assign (fun self => Lsp.RectangleCorrect.mk width (Lsp.RectangleCorrect._height self)).

Definition set_height (height : float) : stateful Lsp.RectangleCorrect.t unit :=
  assign (fun self => Lsp.RectangleCorrect.mk (Lsp.RectangleCorrect._width self) height).

Definition get_area : stateful Lsp.RectangleCorrect.t float :=
  width <- read Lsp.RectangleCorrect._width ;;
  height <- read Lsp.RectangleCorrect._height ;;
  sret (width * height)%float.
End RectangleCorrect.

Module SquareCorrect.
Definition set_side (side : float) : stateful Lsp.SquareCorrect.t unit :=
  assign (fun self => Lsp.SquareCorrect.mk side).

Definition get_area : stateful Lsp.SquareCorrect.t float :=
  side <- read Lsp.SquareCorrect._side ;;
  sret (side * side)%float.
End SquareCorrect.

End Lsp_self.

(** ** dip_example.py *)

Module Dip_self.
Local Open Scope self_scope.

(** [class Database(ABC)] *)
Module Database.
Record methods (S : Type) : Type := mk {
  connect : stateful S unit;
  save_data : string -> stateful S unit;
  get_data : string -> stateful S string
}.
Arguments mk {S} connect save_data get_data.
Arguments connect {S} m.
Arguments save_data {S} m data.
Arguments get_data {S} m id.

(** An object whose three methods leave it as it was. *)
Definition immutable (o : instance methods) : Prop :=
  unchanged_by (invoke (fun S class => connect class)) o
  /\ (forall data : string, unchanged_by (invoke (fun S class => save_data class data)) o)
  /\ (forall id : string, unchanged_by (invoke (fun S class => get_data class id)) o).
End Database.

Definition MySQLDatabaseCorrect : instance Database.methods :=
  stateless (Database.mk
    (effect (print "🔌 Conectando ao MySQL..."))
    (fun data => effect (print ("💾 Salvando no MySQL: " ++ data)))
    (fun id =>
       effect (print ("📖 Buscando no MySQL: ID " ++ id)) ;;
       sret ("Dados do MySQL (ID: " ++ id ++ ")")%string)).

Definition PostgreSQLDatabase : instance Database.methods :=
  stateless (Database.mk
    (effect (print "🔌 Conectando ao PostgreSQL..."))
    (fun data => effect (print ("💾 Salvando no PostgreSQL: " ++ data)))
    (fun id =>
       effect (print ("📖 Buscando no PostgreSQL: ID " ++ id)) ;;
       sret ("Dados do PostgreSQL (ID: " ++ id ++ ")")%string)).

Definition MongoDBDatabase : instance Database.methods :=
  stateless (Database.mk
    (effect (print "🔌 Conectando ao MongoDB..."))
    (fun data => effect (print ("💾 Salvando no MongoDB: " ++ data)))
    (fun id =>
       effect (print ("📖 Buscando no MongoDB: ID " ++ id)) ;;
       sret ("Dados do MongoDB (ID: " ++ id ++ ")")%string)).

Definition Database_subclasses : list (instance Database.methods) :=
  [MySQLDatabaseCorrect; PostgreSQLDatabase; MongoDBDatabase].

Module UserService.
Record t : Type := mk { database : instance Database.methods }.

Definition __init__ (database : instance Database.methods) : t := mk database.

(** [self.database.m(...)] *)
Definition self_database {A} (m : forall S, Database.methods S -> stateful S A)
  : stateful t A :=
  on_attribute database (fun _ held => mk held) (invoke m).

Definition save_user (user : string) : stateful t unit :=
  self_database (fun S class => Database.connect class) ;;
  self_database (fun S class => Database.save_data class user).

Definition get_user (id : string) : stateful t string :=
  self_database (fun S class => Database.get_data class id).
End UserService.

(** [class MessageSender(ABC)] *)
Module MessageSender.
Record methods (S : Type) : Type := mk { send : string -> stateful S unit }.
Arguments mk {S} send.
Arguments send {S} m message.

Definition immutable (o : instance methods) : Prop :=
  forall message : string, unchanged_by (invoke (fun S class => send class message)) o.
End MessageSender.

Definition EmailSender : instance MessageSender.methods :=
  stateless (MessageSender.mk (fun message =>
    effect (print ("📧 Enviando e-mail: " ++ message)))).

Definition SMSSender : instance MessageSender.methods :=
  stateless (MessageSender.mk (fun message =>
    effect (print ("📱 Enviando SMS: " ++ message)))).

Definition PushNotificationSender : instance MessageSender.methods :=
  stateless (MessageSender.mk (fun message =>
    effect (print ("🔔 Enviando notificação push: " ++ message)))).

Definition MessageSender_subclasses : list (instance MessageSender.methods) :=
  [EmailSender; SMSSender; PushNotificationSender].

Module NotificationService.
Record t : Type := mk { senders : list (instance MessageSender.methods) }.

Definition __init__ (senders : list (instance MessageSender.methods)) : t := mk senders.

Definition notify (message : string) : stateful t unit :=
  on_attribute senders (fun _ held => mk held)
    (on_each (invoke (fun S class => MessageSender.send class message))).
End NotificationService.

(** [class PaymentProcessor(ABC)] *)
Module PaymentProcessor.
Record methods (S : Type) : Type := mk { process_payment : float -> stateful S bool }.
Arguments mk {S} process_payment.
Arguments process_payment {S} m amount.

Definition immutable (o : instance methods) : Prop :=
  forall amount : float,
    unchanged_by (invoke (fun S class => process_payment class amount)) o.
End PaymentProcessor.

Definition CreditCardProcessor : instance PaymentProcessor.methods :=
  stateless (PaymentProcessor.mk (fun amount =>
    effect (print ("💳 Processando pagamento de R$ " ++ format_2f amount
                     ++ " via Cartão de Crédito")) ;;
    sret true)).

Definition PayPalProcessor : instance PaymentProcessor.methods :=
  stateless (PaymentProcessor.mk (fun amount =>
    effect (print ("💰 Processando pagamento de R$ " ++ format_2f amount ++ " via PayPal")) ;;
    sret true)).

Definition PixProcessor : instance PaymentProcessor.methods :=
  stateless (PaymentProcessor.mk (fun amount =>
    effect (print ("⚡ Processando pagamento de R$ " ++ format_2f amount ++ " via PIX")) ;;
    sret true)).

Definition PaymentProcessor_subclasses : list (instance PaymentProcessor.methods) :=
  [CreditCardProcessor; PayPalProcessor; PixProcessor].

Module OrderService.
Record t : Type := mk { payment_processor : instance PaymentProcessor.methods }.

Definition __init__ (payment_processor : instance PaymentProcessor.methods) : t :=
  mk payment_processor.

Definition create_order (amount : float) : stateful t unit :=
  effect (print (nl ++ "🛒 Criando pedido de R$ " ++ format_2f amount ++ "...")) ;;
  success <- on_attribute payment_processor (fun _ held => mk held)
               (invoke (fun S class => PaymentProcessor.process_payment class amount)) ;;
  if success : bool
  then effect (print "✓ Pedido criado com sucesso!")
  else effect (print "❌ Falha ao processar pagamento!").
End OrderService.

End Dip_self.


(** * Proof automation for the class tables *)

(** Case analysis on the name looked up in a class of the scripts: every
    function found is concrete and, called with as many arguments as it
    has parameters, returns. *)
Ltac exposed_method_returns Hm :=
  cbn -[String.eqb] in Hm;
  repeat lazymatch type of Hm with
    | context [String.eqb ?m ?s] =>
        destruct (String.eqb_spec m s) as [->|_];
        [ cbn in Hm; injection Hm as <-;
          split; [reflexivity|];
          let margs := fresh "margs" in
          let o := fresh "o" in
          let Hlen := fresh "Hlen" in
          intros margs o Hlen; destruct margs as [|? [|? ?]];
          cbn in Hlen; try discriminate Hlen; reflexivity
        | ]
    end;
  cbn in Hm; discriminate Hm.

(** Case analysis on the method called on an object of a class of the
    scripts: when the call returns, the object is as before. *)
Ltac method_keeps_self H :=
  unfold call in H; cbn -[String.eqb getattr] in H;
  repeat lazymatch type of H with
    | context [String.eqb ?m ?s] =>
        destruct (String.eqb_spec m s) as [->|_];
        [ try congruence;
          cbn -[getattr] in H;
          lazymatch type of H with
          | context [length ?margs] =>
              destruct margs as [|? [|? ?]]; cbn -[getattr] in H; try discriminate H
          end;
          unfold getattr, bind, ret, print, raise in H;
          repeat lazymatch type of H with
            | context [assoc ?k ?d] => destruct (assoc k d); cbn in H
            end;
          try discriminate H;
          injection H as <- _ _; reflexivity
        | ]
    end;
  cbn in H; discriminate H.

(** Case analysis on the method called on two objects whose classes
    define it alike, with as many arguments as it has parameters. *)
Ltac same_call Hm :=
  cbn -[String.eqb] in Hm;
  repeat lazymatch type of Hm with
    | context [String.eqb ?m ?s] =>
        destruct (String.eqb_spec m s) as [->|_];
        [ cbn in Hm; injection Hm as <-;
          lazymatch goal with
          | Hlen : length ?margs = _ |- _ =>
              destruct margs as [|? [|? ?]]; cbn in Hlen; try discriminate Hlen;
              reflexivity
          end
        | ]
    end;
  cbn in Hm; discriminate Hm.

(** The same for a bird and an instance of a base class, both with the
    attribute [name] bound. *)
Ltac same_bird_call Hm Hname :=
  cbn -[String.eqb] in Hm;
  repeat lazymatch type of Hm with
    | context [String.eqb ?m ?s] =>
        destruct (String.eqb_spec m s) as [->|_];
        [ clear Hm;
          lazymatch goal with
          | |- context [call _ _ ?margs _] =>
              destruct margs as [|? [|? ?]]; cbn -[getattr]; unfold getattr;
              rewrite ?Hname; reflexivity
          end
        | ]
    end;
  cbn in Hm; congruence.

(** * Facts about the runtime *)

Section ForEach.

Context {A : Type}.
Implicit Types (xs ys : list A) (body : A -> M unit) (out : stdout).

Lemma for_each_app xs ys body out :
  for_each (xs ++ ys) body out = (for_each xs body ;; for_each ys body) out.
Proof.
  revert out. induction xs as [|x xs IH]; intros out; cbn.
  - reflexivity.
  - unfold bind. destruct (body x out) as [[[]|e] out']; [apply IH | reflexivity].
Qed.

(** When no iteration raises, the loop returns, and the console is the
    one obtained by running the body on each element in list order. *)
Lemma for_each_returns xs body out :
  (forall x, In x xs -> forall o, returns (body x o) = true) ->
  for_each xs body out
  = (Return tt, fold_left (fun o x => printed (body x o)) xs out).
Proof.
  revert out. induction xs as [|x xs IH]; intros out H; cbn.
  - reflexivity.
  - unfold bind. pose proof (H x (or_introl eq_refl) out) as Hx.
    unfold returns in Hx. unfold printed at 2.
    destruct (body x out) as [[[]|e] out']; [|discriminate Hx].
    apply IH. intros y Hy. apply H. right. exact Hy.
Qed.

(** The first iteration that raises ends the loop with its exception
    and its console: the elements after it are not visited. *)
Lemma for_each_raises pre x post body out out1 e out2 :
  for_each pre body out = (Return tt, out1) ->
  body x out1 = (Raise e, out2) ->
  for_each (pre ++ x :: post) body out = (Raise e, out2).
Proof.
  revert out. induction pre as [|a pre IH]; intros out Hpre Hx; cbn in *.
  - unfold ret in Hpre. injection Hpre as <-. unfold bind. rewrite Hx. reflexivity.
  - unfold bind in *. destruct (body a out) as [[[]|e'] o']; [|discriminate Hpre].
    apply IH; assumption.
Qed.

(** A loop whose body prints one line per element. *)
Lemma for_each_print xs (line : A -> string) out :
  for_each xs (fun x => print (line x)) out = (Return tt, (out ++ map line xs)%list).
Proof.
  revert out. induction xs as [|x xs IH]; intros out; cbn.
  - unfold ret. rewrite app_nil_r. reflexivity.
  - unfold bind, print. rewrite IH, <- app_assoc. reflexivity.
Qed.

(** When each iteration only adds text to the console, the loop adds
    the texts of the elements in list order. *)
Lemma for_each_appends xs body out :
  (forall x, In x xs ->
             forall o, body x o = (Return tt, (o ++ printed (body x []))%list)) ->
  for_each xs body out
  = (Return tt, (out ++ flat_map (fun x => printed (body x [])) xs)%list).
Proof.
  revert out. induction xs as [|x xs IH]; intros out H; cbn.
  - unfold ret. rewrite app_nil_r. reflexivity.
  - unfold bind. rewrite (H x (or_introl eq_refl) out).
    rewrite IH by (intros y Hy; apply H; right; exact Hy).
    rewrite <- app_assoc. reflexivity.
Qed.

Lemma flat_map_one_each {B : Type} xs (f : A -> list B) :
  (forall x, In x xs -> length (f x) = 1) ->
  length (flat_map f xs) = length xs.
Proof.
  induction xs as [|x xs IH]; intros H; cbn.
  - reflexivity.
  - rewrite length_app, (H x (or_introl eq_refl)), IH; [reflexivity|].
    intros y Hy. apply H. right. exact Hy.
Qed.

End ForEach.

(** * Dependency injection: the consumer follows the provider it is given *)

(** C1. Substitutability.  For any two implementations [P1], [P2] of
    [Database] and a [UserService] bound to [P1], the service bound to
    [P2] instead answers [get_user] (and [save_user]) with exactly what
    [P2] does on the same arguments: the result is a function of the bound
    provider and the arguments.  With [MySQLDatabaseCorrect] swapped for
    [PostgreSQLDatabase] the value returned is the PostgreSQL one, which
    differs from the MySQL one on every id. *)
Theorem C1_substitutability :
  forall (P1 P2 : Dip.Database.t) (id user : string) (out : stdout),
    let C := Dip.UserService.__init__ P1 in
    let C' := Dip.UserService.__init__ P2 in
    Dip.UserService.get_user C id out = Dip.Database.get_data P1 id out
    /\ Dip.UserService.get_user C' id out = Dip.Database.get_data P2 id out
    /\ Dip.UserService.save_user C' user out
       = (Dip.Database.connect P2 ;; Dip.Database.save_data P2 user) out
    /\ Dip.UserService.get_user (Dip.UserService.__init__ Dip.PostgreSQLDatabase) id out
       = (Return ("Dados do PostgreSQL (ID: " ++ id ++ ")"),
          (out ++ [("📖 Buscando no PostgreSQL: ID " ++ id)%string])%list)
    /\ Dip.UserService.get_user (Dip.UserService.__init__ Dip.MySQLDatabaseCorrect) id out
       = (Return ("Dados do MySQL (ID: " ++ id ++ ")"),
          (out ++ [("📖 Buscando no MySQL: ID " ++ id)%string])%list)
    /\ outcome (Dip.UserService.get_user
                  (Dip.UserService.__init__ Dip.PostgreSQLDatabase) id out)
       <> outcome (Dip.UserService.get_user
                     (Dip.UserService.__init__ Dip.MySQLDatabaseCorrect) id out).
Proof.
  intros P1 P2 id user out C C'.
  repeat split; try reflexivity.
  cbn. intro H. injection H as H. discriminate H.
Qed.

(** * Discounts *)

(** C3. The discount scenario: on the price 100.0 the providers
    [NoDiscount], [PremiumDiscount], [VIPDiscount] and [SeasonalDiscount]
    return 0.0, 10.0, 20.0 and 15.0, and
    [DiscountCalculator.calculate_final_price] with each of them returns
    100.0, 90.0, 80.0 and 85.0; nothing is printed. *)
Theorem C3_discount_scenario :
  forall out : stdout,
    let calculator := Ocp.DiscountCalculator.__init__ in
    let final := Ocp.DiscountCalculator.calculate_final_price calculator 100.0%float in
    Ocp.Discount.calculate Ocp.NoDiscount 100.0%float out = (Return 0.0%float, out)
    /\ Ocp.Discount.calculate Ocp.PremiumDiscount 100.0%float out = (Return 10.0%float, out)
    /\ Ocp.Discount.calculate Ocp.VIPDiscount 100.0%float out = (Return 20.0%float, out)
    /\ Ocp.Discount.calculate Ocp.SeasonalDiscount 100.0%float out = (Return 15.0%float, out)
    /\ final Ocp.NoDiscount out = (Return 100.0%float, out)
    /\ final Ocp.PremiumDiscount out = (Return 90.0%float, out)
    /\ final Ocp.VIPDiscount out = (Return 80.0%float, out)
    /\ final Ocp.SeasonalDiscount out = (Return 85.0%float, out).
Proof.
  intros out calculator final. repeat split; reflexivity.
Qed.

(** * The repository stub *)

(** C9. [UserRepository.find_by_email] returns [None] for every e-mail,
    whatever users were saved before: it prints its line and yields no
    [User]. *)
Theorem C9_find_by_email_returns_None :
  forall (saved : list Srp.User.t) (email : string) (out : stdout),
    let repository := Srp.UserRepository.__init__ in
    Srp.UserRepository.find_by_email repository email out
    = (Return None, (out ++ [("✓ Buscando usuário com e-mail " ++ email ++ "...")%string])%list)
    /\ outcome ((for_each saved (Srp.UserRepository.save repository) ;;
                 Srp.UserRepository.find_by_email repository email) out)
       = Return None.
Proof.
  intros saved email out repository. split; [reflexivity|].
  unfold bind, Srp.UserRepository.save. rewrite for_each_print. reflexivity.
Qed.

(** * Payments *)

(** C10. Each of [CreditCardProcessor], [PayPalProcessor] and
    [PixProcessor] returns [True] from [process_payment] on every amount,
    so [OrderService.create_order] with any of them prints the order line,
    the processor's line and the success line, and never the failure
    line. *)
Theorem C10_create_order_always_succeeds :
  forall (processor : Dip.PaymentProcessor.t) (amount : float) (out : stdout),
    In processor Dip.PaymentProcessor_subclasses ->
    outcome (Dip.PaymentProcessor.process_payment processor amount out) = Return true
    /\ Dip.OrderService.create_order (Dip.OrderService.__init__ processor) amount out
       = (Return tt,
          (out ++ [(nl ++ "🛒 Criando pedido de R$ " ++ format_2f amount ++ "...")%string]
               ++ printed (Dip.PaymentProcessor.process_payment processor amount [])
               ++ ["✓ Pedido criado com sucesso!"])%list)
    /\ ~ In "❌ Falha ao processar pagamento!"
           (printed (Dip.OrderService.create_order
                       (Dip.OrderService.__init__ processor) amount [])).
Proof.
  intros processor amount out Hin.
  assert (Hsnoc : forall (l : stdout) a b c,
             (((l ++ [a]) ++ [b]) ++ [c] = l ++ [a] ++ [b] ++ [c])%list)
    by (intros; rewrite <- !app_assoc; reflexivity).
  destruct Hin as [<-|[<-|[<-|[]]]];
    (split; [reflexivity|]; split;
     [cbn; unfold bind, print, ret; cbn; rewrite Hsnoc; reflexivity
     | cbn; intros [H|[H|[H|[]]]]; discriminate H]).
Qed.

Lemma C10_create_order_always_succeeds_witness :
  In Dip.PixProcessor Dip.PaymentProcessor_subclasses
  /\ outcome (Dip.PaymentProcessor.process_payment Dip.PixProcessor 99.90%float [])
     = Return true
  /\ Dip.OrderService.create_order (Dip.OrderService.__init__ Dip.PixProcessor)
       99.90%float []
     = (Return tt,
        ([] ++ [(nl ++ "🛒 Criando pedido de R$ " ++ format_2f 99.90%float ++ "...")%string]
            ++ printed (Dip.PaymentProcessor.process_payment Dip.PixProcessor 99.90%float [])
            ++ ["✓ Pedido criado com sucesso!"])%list)
  /\ ~ In "❌ Falha ao processar pagamento!"
         (printed (Dip.OrderService.create_order
                     (Dip.OrderService.__init__ Dip.PixProcessor) 99.90%float [])).
Proof.
  assert (Hin : In Dip.PixProcessor Dip.PaymentProcessor_subclasses)
    by (cbn; right; right; left; reflexivity).
  split; [exact Hin|].
  exact (C10_create_order_always_succeeds Dip.PixProcessor 99.90%float [] Hin).
Defined.

(** The order of 99.90 paid by PIX, as the script runs it. *)
Example create_order_pix :
  Dip.OrderService.create_order (Dip.OrderService.__init__ Dip.PixProcessor) 99.90%float []
  = (Return tt,
     [(nl ++ "🛒 Criando pedido de R$ 99.90...")%string;
      "⚡ Processando pagamento de R$ 99.90 via PIX";
      "✓ Pedido criado com sucesso!"]).
Proof. vm_compute. reflexivity. Qed.

(** * Fan-out *)

(** What [NotificationService.notifiers] holds after binding the
    notifiers of a list one by one, in list order. *)
Lemma add_notifier_all (notifiers : list Ocp.Notifier.t) (self : Ocp.NotificationService.t) :
  Ocp.NotificationService.notifiers
    (fold_left Ocp.NotificationService.add_notifier notifiers self)
  = (Ocp.NotificationService.notifiers self ++ notifiers)%list.
Proof.
  revert self. induction notifiers as [|n ns IH]; intros self; cbn.
  - rewrite app_nil_r. reflexivity.
  - rewrite IH. cbn. rewrite <- app_assoc. reflexivity.
Qed.

(** C2. Fan-out order.  [NotificationService.notify] (dip) and
    [NotificationService.notify_all] (ocp) call [send] of every bound
    provider once, in binding order, each with the message as given.
    - For any providers whose [send] returns, the call returns and the
      console is the result of running each provider's [send message] in
      list order, starting from the console before the call.
    - For the senders (notifiers) the scripts define, the text added is
      one line per bound provider, in binding order: the line that
      provider prints for this message.
    - Bound to [[EmailSender; SMSSender]] and called with "code:123456",
      [notify] makes two deliveries, the e-mail first and the SMS second,
      each carrying "code:123456". *)
Theorem C2_fan_out_in_binding_order :
  (forall (senders : list Dip.MessageSender.t) (message : string) (out : stdout),
      (forall sender, In sender senders ->
                      forall o, returns (Dip.MessageSender.send sender message o) = true) ->
      Dip.NotificationService.notify (Dip.NotificationService.__init__ senders) message out
      = (Return tt,
         fold_left (fun o sender => printed (Dip.MessageSender.send sender message o))
           senders out))
  /\ (forall (senders : list Dip.MessageSender.t) (message : string) (out : stdout),
         incl senders [Dip.EmailSender; Dip.SMSSender; Dip.PushNotificationSender] ->
         Dip.NotificationService.notify (Dip.NotificationService.__init__ senders) message out
         = (Return tt,
            (out ++ flat_map
                      (fun sender => printed (Dip.MessageSender.send sender message []))
                      senders)%list)
         /\ length (flat_map
                      (fun sender => printed (Dip.MessageSender.send sender message []))
                      senders)
            = length senders)
  /\ Dip.NotificationService.notify
       (Dip.NotificationService.__init__ [Dip.EmailSender; Dip.SMSSender]) "code:123456" []
     = (Return tt, ["📧 Enviando e-mail: code:123456"; "📱 Enviando SMS: code:123456"])
  /\ (forall (notifiers : list Ocp.Notifier.t) (message : string) (out : stdout),
         let service :=
           fold_left Ocp.NotificationService.add_notifier notifiers
             Ocp.NotificationService.__init__ in
         (forall notifier, In notifier notifiers ->
                           forall o, returns (Ocp.Notifier.send notifier message o) = true) ->
         Ocp.NotificationService.notify_all service message out
         = (Return tt,
            fold_left (fun o notifier => printed (Ocp.Notifier.send notifier message o))
              notifiers out))
  /\ (forall (notifiers : list Ocp.Notifier.t) (message : string) (out : stdout),
         let service :=
           fold_left Ocp.NotificationService.add_notifier notifiers
             Ocp.NotificationService.__init__ in
         incl notifiers
           [Ocp.EmailNotifier; Ocp.SMSNotifier; Ocp.PushNotifier; Ocp.WhatsAppNotifier] ->
         Ocp.NotificationService.notify_all service message out
         = (Return tt,
            (out ++ flat_map
                      (fun notifier => printed (Ocp.Notifier.send notifier message []))
                      notifiers)%list)
         /\ length (flat_map
                      (fun notifier => printed (Ocp.Notifier.send notifier message []))
                      notifiers)
            = length notifiers).
Proof.
  split; [|split; [|split; [|split]]].
  - intros senders message out H.
    apply (for_each_returns senders (fun s => Dip.MessageSender.send s message) out H).
  - intros senders message out Hincl. split.
    + apply (for_each_appends senders (fun s => Dip.MessageSender.send s message)).
      intros s Hs o. apply Hincl in Hs.
      destruct Hs as [<-|[<-|[<-|[]]]]; reflexivity.
    + apply flat_map_one_each. intros s Hs. apply Hincl in Hs.
      destruct Hs as [<-|[<-|[<-|[]]]]; reflexivity.
  - reflexivity.
  - intros notifiers message out service H.
    unfold Ocp.NotificationService.notify_all, service.
    rewrite add_notifier_all.
    apply (for_each_returns notifiers (fun n => Ocp.Notifier.send n message) out H).
  - intros notifiers message out service Hincl.
    unfold Ocp.NotificationService.notify_all, service.
    rewrite add_notifier_all. split.
    + apply (for_each_appends notifiers (fun n => Ocp.Notifier.send n message)).
      intros s Hs o. apply Hincl in Hs.
      destruct Hs as [<-|[<-|[<-|[<-|[]]]]]; reflexivity.
    + apply flat_map_one_each. intros s Hs. apply Hincl in Hs.
      destruct Hs as [<-|[<-|[<-|[<-|[]]]]]; reflexivity.
Qed.

Lemma C2_fan_out_in_binding_order_witness :
  (forall sender, In sender [Dip.EmailSender; Dip.SMSSender] ->
                  forall o, returns (Dip.MessageSender.send sender "code:123456" o) = true)
  /\ Dip.NotificationService.notify
       (Dip.NotificationService.__init__ [Dip.EmailSender; Dip.SMSSender]) "code:123456" []
     = (Return tt,
        fold_left (fun o sender => printed (Dip.MessageSender.send sender "code:123456" o))
          [Dip.EmailSender; Dip.SMSSender] []).
Proof.
  assert (H : forall sender, In sender [Dip.EmailSender; Dip.SMSSender] ->
                forall o, returns (Dip.MessageSender.send sender "code:123456" o) = true)
    by (intros s [<-|[<-|[]]] o; reflexivity).
  split; [exact H|].
  exact (proj1 C2_fan_out_in_binding_order
           [Dip.EmailSender; Dip.SMSSender] "code:123456" [] H).
Defined.

(** C8. Fan-out is fail-fast.  In [notify] (dip) and [notify_all] (ocp),
    when the providers before position k return and the provider at
    position k raises, the call raises that same exception with the
    console as the failing provider left it: whatever providers are bound
    after position k, none of them runs, and no other failure is
    collected. *)
Theorem C8_fan_out_fail_fast :
  (forall (before after : list Dip.MessageSender.t) (failing : Dip.MessageSender.t)
          (message : string) (out out1 out2 : stdout) (e : exn),
      Dip.NotificationService.notify (Dip.NotificationService.__init__ before) message out
      = (Return tt, out1) ->
      Dip.MessageSender.send failing message out1 = (Raise e, out2) ->
      Dip.NotificationService.notify
        (Dip.NotificationService.__init__ (before ++ failing :: after)) message out
      = (Raise e, out2))
  /\ (forall (before after : list Ocp.Notifier.t) (failing : Ocp.Notifier.t)
             (message : string) (out out1 out2 : stdout) (e : exn),
         let bound notifiers :=
           fold_left Ocp.NotificationService.add_notifier notifiers
             Ocp.NotificationService.__init__ in
         Ocp.NotificationService.notify_all (bound before) message out = (Return tt, out1) ->
         Ocp.Notifier.send failing message out1 = (Raise e, out2) ->
         Ocp.NotificationService.notify_all (bound (before ++ failing :: after)%list) message out
         = (Raise e, out2)).
Proof.
  split.
  - intros before after failing message out out1 out2 e Hbefore Hfail.
    exact (for_each_raises before failing after
             (fun s => Dip.MessageSender.send s message) out out1 e out2 Hbefore Hfail).
  - intros before after failing message out out1 out2 e bound.
    unfold Ocp.NotificationService.notify_all, bound.
    rewrite !add_notifier_all. cbn [Ocp.NotificationService.notifiers
      Ocp.NotificationService.__init__ app].
    intros Hbefore Hfail.
    exact (for_each_raises before failing after
             (fun n => Ocp.Notifier.send n message) out out1 e out2 Hbefore Hfail).
Qed.

Lemma C8_fan_out_fail_fast_witness :
  let failing :=
    {| Dip.MessageSender.send := fun _ => raise (mkExn "ConnectionError" "gateway down") |} in
  Dip.NotificationService.notify
    (Dip.NotificationService.__init__ [Dip.EmailSender; failing; Dip.SMSSender])
    "code:123456" []
  = (Raise (mkExn "ConnectionError" "gateway down"), ["📧 Enviando e-mail: code:123456"]).
Proof.
  intro failing.
  exact (proj1 C8_fan_out_fail_fast [Dip.EmailSender] [Dip.SMSSender] failing
           "code:123456" [] ["📧 Enviando e-mail: code:123456"]
           ["📧 Enviando e-mail: code:123456"] (mkExn "ConnectionError" "gateway down")
           eq_refl eq_refl).
Defined.

(** * Single-strategy delegation *)


(** C4, as stated, fails on [DiscountCalculator]: for the price 100.0 and
    [PremiumDiscount] the provider returns 10.0 and
    [calculate_final_price] returns 90.0. *)
Lemma C4_final_price_is_not_the_discount :
  let calculator := Ocp.DiscountCalculator.__init__ in
  Ocp.Discount.calculate Ocp.PremiumDiscount 100.0%float [] = (Return 10.0%float, [])
  /\ Ocp.DiscountCalculator.calculate_final_price calculator 100.0%float Ocp.PremiumDiscount []
     = (Return 90.0%float, [])
  /\ Ocp.DiscountCalculator.calculate_final_price calculator 100.0%float Ocp.PremiumDiscount []
     <> Ocp.Discount.calculate Ocp.PremiumDiscount 100.0%float [].
Proof.
  intro calculator. split; [reflexivity|]. split; [reflexivity|].
  intro H. apply (f_equal (returned_float 90.0%float)) in H.
  vm_compute in H. discriminate H.
Qed.

(** C4, amended.  A consumer bound to one provider calls that provider
    once per call and keeps nothing between calls.  [UserService.get_user]
    returns what [database.get_data(id)] returns, unchanged, and calling it
    twice runs [get_data] twice.  [DiscountCalculator.calculate_final_price]
    calls [discount.calculate(price)] and returns the price minus that
    amount; an exception of the provider passes through. *)
Theorem C4_single_strategy_delegation :
  (forall (database : Dip.Database.t) (id : string) (out : stdout),
      let service := Dip.UserService.__init__ database in
      Dip.UserService.get_user service id out = Dip.Database.get_data database id out
      /\ (Dip.UserService.get_user service id ;; Dip.UserService.get_user service id) out
         = (Dip.Database.get_data database id ;; Dip.Database.get_data database id) out)
  /\ (forall (discount : Ocp.Discount.t) (price amount : float) (out out' : stdout),
         Ocp.Discount.calculate discount price out = (Return amount, out') ->
         Ocp.DiscountCalculator.calculate_final_price Ocp.DiscountCalculator.__init__
           price discount out
         = (Return (price - amount)%float, out'))
  /\ (forall (discount : Ocp.Discount.t) (price : float) (e : exn) (out out' : stdout),
         Ocp.Discount.calculate discount price out = (Raise e, out') ->
         Ocp.DiscountCalculator.calculate_final_price Ocp.DiscountCalculator.__init__
           price discount out
         = (Raise e, out')).
Proof.
  split; [|split].
  - intros database id out service. split; reflexivity.
  - intros discount price amount out out' H.
    unfold Ocp.DiscountCalculator.calculate_final_price, bind. rewrite H. reflexivity.
  - intros discount price e out out' H.
    unfold Ocp.DiscountCalculator.calculate_final_price, bind. rewrite H. reflexivity.
Qed.

Lemma C4_single_strategy_delegation_witness :
  Ocp.Discount.calculate Ocp.VIPDiscount 100.0%float [] = (Return 20.0%float, [])
  /\ Ocp.DiscountCalculator.calculate_final_price Ocp.DiscountCalculator.__init__
       100.0%float Ocp.VIPDiscount []
     = (Return (100.0 - 20.0)%float, []).
Proof.
  split; [reflexivity|].
  exact (proj1 (proj2 C4_single_strategy_delegation)
           Ocp.VIPDiscount 100.0%float 20.0%float [] [] eq_refl).
Defined.

(** * The tag dispatcher *)

(** C6, as stated, fails: on the tag "student", which
    [DiscountCalculatorBad.calculate_discount] does not know, the call
    raises nothing and returns the default 0.0. *)
Lemma C6_unknown_tag_returns_zero :
  let calculator := Ocp.DiscountCalculatorBad.__init__ in
  Ocp.DiscountCalculatorBad.calculate_discount calculator "student" 100.0%float []
  = (Return 0.0%float, [])
  /\ ~ (exists (e : exn) (out : stdout),
           Ocp.DiscountCalculatorBad.calculate_discount calculator "student" 100.0%float []
           = (Raise e, out)).
Proof.
  intro calculator. split; [reflexivity|].
  intros [e [out H]]. vm_compute in H. discriminate H.
Qed.

(** C6, amended.  On a customer type other than "regular", "premium",
    "vip" and "employee", [calculate_discount] returns 0.0 for every
    price, prints nothing and raises nothing. *)
Theorem C6_unknown_tag_default :
  forall (customer_type : string) (price : float) (out : stdout),
    ~ In customer_type ["regular"; "premium"; "vip"; "employee"] ->
    Ocp.DiscountCalculatorBad.calculate_discount Ocp.DiscountCalculatorBad.__init__
      customer_type price out
    = (Return 0.0%float, out).
Proof.
  intros customer_type price out Hnot.
  unfold Ocp.DiscountCalculatorBad.calculate_discount.
  destruct (String.eqb_spec customer_type "regular") as [->|_];
    [exfalso; apply Hnot; cbn; tauto|].
  destruct (String.eqb_spec customer_type "premium") as [->|_];
    [exfalso; apply Hnot; cbn; tauto|].
  destruct (String.eqb_spec customer_type "vip") as [->|_];
    [exfalso; apply Hnot; cbn; tauto|].
  destruct (String.eqb_spec customer_type "employee") as [->|_];
    [exfalso; apply Hnot; cbn; tauto|].
  reflexivity.
Qed.

Lemma C6_unknown_tag_default_witness :
  ~ In "student" ["regular"; "premium"; "vip"; "employee"]
  /\ Ocp.DiscountCalculatorBad.calculate_discount Ocp.DiscountCalculatorBad.__init__
       "student" 250.0%float ["earlier line"]
     = (Return 0.0%float, ["earlier line"]).
Proof.
  assert (H : ~ In "student" ["regular"; "premium"; "vip"; "employee"])
    by (cbn; intros [H|[H|[H|[H|[]]]]]; discriminate H).
  split; [exact H|].
  exact (C6_unknown_tag_default "student" 250.0%float ["earlier line"] H).
Defined.

(** * Facts about classes *)

Lemma uses_abcmeta_Class name bases namespace :
  uses_abcmeta (Class name bases namespace) = existsb uses_abcmeta bases.
Proof.
  cbn. induction bases as [|b bs IH]; [reflexivity|]. cbn. rewrite IH. reflexivity.
Qed.

Lemma abstractmethods_Class name bases namespace :
  abstractmethods (Class name bases namespace)
  = if uses_abcmeta (Class name bases namespace)
    then (map fst (filter (fun kv => isabstractmethod (snd kv)) namespace)
          ++ filter (is_abstract_on (Class name bases namespace))
               (flat_map abstractmethods bases))%list
    else [].
Proof.
  cbn [abstractmethods].
  destruct (uses_abcmeta (Class name bases namespace)); reflexivity.
Qed.

Lemma abstractmethods_uses_abcmeta (c : class) (op : string) :
  In op (abstractmethods c) -> uses_abcmeta c = true.
Proof.
  destruct c as [|name bases namespace]; [intros []|].
  rewrite abstractmethods_Class.
  destruct (uses_abcmeta (Class name bases namespace)); [reflexivity | intros []].
Qed.

(** A class that derives from a class with an abstract method and does not
    override it with a concrete one has that method in
    [__abstractmethods__]. *)
Lemma abstractmethods_inherited (K : class) (op name : string) bases namespace :
  In op (abstractmethods K) ->
  In K bases ->
  is_abstract_on (Class name bases namespace) op = true ->
  In op (abstractmethods (Class name bases namespace)).
Proof.
  intros Hop HK Habs. rewrite abstractmethods_Class.
  assert (Hmeta : uses_abcmeta (Class name bases namespace) = true).
  { rewrite uses_abcmeta_Class. apply existsb_exists. exists K. split; [exact HK|].
    exact (abstractmethods_uses_abcmeta K op Hop). }
  rewrite Hmeta. apply in_or_app. right. apply filter_In. split; [|exact Habs].
  apply in_flat_map. exists K. split; assumption.
Qed.

Lemma instantiate_abstract (c : class) (op : string) (args : list string) (out : stdout) :
  In op (abstractmethods c) ->
  exists e : exn, instantiate c args out = (Raise e, out) /\ exn_class e = "TypeError".
Proof.
  intros Hop. unfold instantiate.
  destruct (abstractmethods c) as [|m ms]; [destruct Hop|].
  destruct (getattr_class c "__init__"), args; eexists; split; reflexivity.
Qed.

(** * State after construction *)

Section Unchanged.

Context {S : Type}.
Implicit Types (self : S).

Lemma unchanged_by_sret {A} (a : A) self : unchanged_by (sret a) self.
Proof. intro out. reflexivity. Qed.

Lemma unchanged_by_read {A} (attr : S -> A) self : unchanged_by (read attr) self.
Proof. intro out. reflexivity. Qed.

Lemma unchanged_by_effect {A} (m : M A) self : unchanged_by (effect m) self.
Proof. intro out. unfold effect, self_after. destruct (m out). reflexivity. Qed.

(** A sequence changes [self] only if one of its parts does. *)
Lemma unchanged_by_sbind {A B} (m : stateful S A) (k : A -> stateful S B) self :
  unchanged_by m self ->
  (forall a, unchanged_by (k a) self) ->
  unchanged_by (sbind m k) self.
Proof.
  intros Hm Hk out. specialize (Hm out). unfold sbind, self_after in *.
  destruct (m self out) as [[r self'] out']. cbn in Hm. subst self'.
  destruct r; [apply Hk | reflexivity].
Qed.

Lemma unchanged_by_on_argument {T A} (call : stateful T A) (arg : T) self :
  unchanged_by (on_argument call arg) self.
Proof.
  intro out. unfold on_argument, self_after.
  destruct (call arg out) as [[r arg'] out']. reflexivity.
Qed.

(** A call on the object held in an attribute changes [self] only if it
    changes that object. *)
Lemma unchanged_by_on_attribute {T A} (get : S -> T) (set : S -> T -> S)
      (call : stateful T A) self :
  unchanged_by call (get self) ->
  set self (get self) = self ->
  unchanged_by (on_attribute get set call) self.
Proof.
  intros Hcall Hset out. specialize (Hcall out). unfold on_attribute, self_after in *.
  destruct (call (get self) out) as [[r held] out']. cbn in *. subst held. exact Hset.
Qed.

End Unchanged.

(** A loop over objects changes the list only if a call changes one of
    them. *)
Lemma unchanged_by_on_each {T} (call : stateful T unit) (xs : list T) :
  Forall (unchanged_by call) xs -> unchanged_by (on_each call) xs.
Proof.
  induction 1 as [|x xs Hx _ IH]; intro out; [reflexivity|].
  specialize (Hx out). unfold self_after in *. cbn [on_each].
  destruct (call x out) as [[r x'] out']. cbn in Hx. subst x'.
  destruct r as [[]|e]; [|reflexivity].
  specialize (IH out'). destruct (on_each call xs out') as [[r' xs'] out''].
  cbn in *. rewrite IH. reflexivity.
Qed.

(** The methods with [self] threaded through return and print what the
    methods of the first embedding do. *)
Lemma on_each_seen {T B} (call : stateful T unit) (body : B -> M unit)
      (ps : list (B * T)) (out : stdout) :
  (forall p o, In p ps -> seen (call (snd p) o) = body (fst p) o) ->
  seen (on_each call (map snd ps) out) = for_each (map fst ps) body out.
Proof.
  revert out. induction ps as [|p ps IH]; intros out H; [reflexivity|].
  cbn [map on_each for_each]. unfold bind.
  rewrite <- (H p out (or_introl eq_refl)). unfold seen at 2.
  destruct (call (snd p) out) as [[[[]|e] x'] out']; cbn [fst snd]; [|reflexivity].
  rewrite <- (IH out') by (intros q o Hq; apply H; right; exact Hq).
  unfold seen. destruct (on_each call (map snd ps) out') as [[r xs'] out'']. reflexivity.
Qed.

Lemma self_threaded_methods_agree :
  (forall (self : Srp.User.t) (out : stdout),
      seen (Srp_self.User.get_info self out) = Srp.User.get_info self out)
  /\ (forall (self : Srp.UserRepository.t) (user : Srp.User.t) (email : string)
             (out : stdout),
         seen (Srp_self.UserRepository.save user self out)
         = Srp.UserRepository.save self user out
         /\ seen (Srp_self.UserRepository.find_by_email email self out)
            = Srp.UserRepository.find_by_email self email out)
  /\ (forall (self : Srp.EmailService.t) (user : Srp.User.t) (message : string)
             (out : stdout),
         seen (Srp_self.EmailService.send_welcome_email user self out)
         = Srp.EmailService.send_welcome_email self user out
         /\ seen (Srp_self.EmailService.send_notification user message self out)
            = Srp.EmailService.send_notification self user message out)
  /\ (forall (self : Srp.ReportGenerator.t) (user : Srp.User.t) (out : stdout),
         seen (Srp_self.ReportGenerator.generate_user_report user self out)
         = Srp.ReportGenerator.generate_user_report self user out)
  /\ (forall (p : Ocp.Discount.t * instance Ocp_self.Discount.methods)
             (self : Ocp.DiscountCalculator.t) (price : float) (out : stdout),
         In p (combine [Ocp.NoDiscount; Ocp.RegularDiscount; Ocp.PremiumDiscount;
                        Ocp.VIPDiscount; Ocp.EmployeeDiscount; Ocp.SeasonalDiscount]
                 Ocp_self.Discount_subclasses) ->
         seen (Ocp_self.DiscountCalculator.calculate_final_price price (snd p) self out)
         = Ocp.DiscountCalculator.calculate_final_price self price (fst p) out)
  /\ (forall (ps : list (Ocp.Notifier.t * instance Ocp_self.Notifier.methods))
             (message : string) (out : stdout),
         incl ps (combine [Ocp.EmailNotifier; Ocp.SMSNotifier; Ocp.PushNotifier;
                           Ocp.WhatsAppNotifier] Ocp_self.Notifier_subclasses) ->
         seen (Ocp_self.NotificationService.notify_all message
                 (Ocp_self.NotificationService.mk (map snd ps)) out)
         = Ocp.NotificationService.notify_all
             (Ocp.NotificationService.mk (map fst ps)) message out)
  /\ (forall (self : Lsp.RectangleCorrect.t) (width height : float) (out : stdout),
         self_after (Lsp_self.RectangleCorrect.set_width width self out)
         = Lsp.RectangleCorrect.set_width self width
         /\ self_after (Lsp_self.RectangleCorrect.set_height height self out)
            = Lsp.RectangleCorrect.set_height self height
         /\ seen (Lsp_self.RectangleCorrect.get_area self out)
            = Lsp.RectangleCorrect.get_area self out)
  /\ (forall (self : Lsp.SquareCorrect.t) (side : float) (out : stdout),
         self_after (Lsp_self.SquareCorrect.set_side side self out)
         = Lsp.SquareCorrect.set_side self side
         /\ seen (Lsp_self.SquareCorrect.get_area self out)
            = Lsp.SquareCorrect.get_area self out)
  /\ (forall (p : Dip.Database.t * instance Dip_self.Database.methods)
             (user id : string) (out : stdout),
         In p (combine Dip.Database_subclasses Dip_self.Database_subclasses) ->
         seen (Dip_self.UserService.save_user user (Dip_self.UserService.__init__ (snd p)) out)
         = Dip.UserService.save_user (Dip.UserService.__init__ (fst p)) user out
         /\ seen (Dip_self.UserService.get_user id (Dip_self.UserService.__init__ (snd p)) out)
            = Dip.UserService.get_user (Dip.UserService.__init__ (fst p)) id out)
  /\ (forall (ps : list (Dip.MessageSender.t * instance Dip_self.MessageSender.methods))
             (message : string) (out : stdout),
         incl ps (combine [Dip.EmailSender; Dip.SMSSender; Dip.PushNotificationSender]
                    Dip_self.MessageSender_subclasses) ->
         seen (Dip_self.NotificationService.notify message
                 (Dip_self.NotificationService.__init__ (map snd ps)) out)
         = Dip.NotificationService.notify
             (Dip.NotificationService.__init__ (map fst ps)) message out)
  /\ (forall (p : Dip.PaymentProcessor.t * instance Dip_self.PaymentProcessor.methods)
             (amount : float) (out : stdout),
         In p (combine Dip.PaymentProcessor_subclasses Dip_self.PaymentProcessor_subclasses) ->
         seen (Dip_self.OrderService.create_order amount
                 (Dip_self.OrderService.__init__ (snd p)) out)
         = Dip.OrderService.create_order (Dip.OrderService.__init__ (fst p)) amount out).
Proof.
  split; [intros; reflexivity|].
  split; [intros; split; reflexivity|].
  split; [intros; split; reflexivity|].
  split; [intros; reflexivity|].
  split.
  { intros p self price out Hp. cbn in Hp.
    repeat (destruct Hp as [<-|Hp]; [reflexivity|]). destruct Hp. }
  split.
  { intros ps message out Hps.
    transitivity (seen (on_each
                          (invoke (fun S class => Ocp_self.Notifier.send class message))
                          (map snd ps) out)).
    - unfold Ocp_self.NotificationService.notify_all, on_attribute, seen.
      cbn [Ocp_self.NotificationService.notifiers].
      destruct (on_each _ (map snd ps) out) as [[r xs] o]. reflexivity.
    - apply (on_each_seen
               (invoke (fun S class => Ocp_self.Notifier.send class message))
               (fun n => Ocp.Notifier.send n message) ps out).
      intros p o Hp. apply Hps in Hp. cbn in Hp.
      repeat (destruct Hp as [<-|Hp]; [reflexivity|]). destruct Hp. }
  split; [intros; repeat split; reflexivity|].
  split; [intros; split; reflexivity|].
  split.
  { intros p user id out Hp. cbn in Hp.
    repeat (destruct Hp as [<-|Hp]; [split; reflexivity|]). destruct Hp. }
  split.
  { intros ps message out Hps.
    transitivity (seen (on_each
                          (invoke (fun S class => Dip_self.MessageSender.send class message))
                          (map snd ps) out)).
    - unfold Dip_self.NotificationService.notify, on_attribute, seen.
      cbn [Dip_self.NotificationService.senders Dip_self.NotificationService.__init__].
      destruct (on_each _ (map snd ps) out) as [[r xs] o]. reflexivity.
    - apply (on_each_seen
               (invoke (fun S class => Dip_self.MessageSender.send class message))
               (fun n => Dip.MessageSender.send n message) ps out).
      intros p o Hp. apply Hps in Hp. cbn in Hp.
      repeat (destruct Hp as [<-|Hp]; [reflexivity|]). destruct Hp. }
  intros p amount out Hp. cbn in Hp.
  repeat (destruct Hp as [<-|Hp]; [reflexivity|]). destruct Hp.
Qed.

Lemma corrected_objects_keep_their_state (c : class) :
  In c (Isp.corrected ++ Lsp.corrected_bases ++ Lsp.corrected) ->
  forall (d : dict) (m : string) (args : list string) (self' : object)
         (v : option string) (o o' : stdout),
    m <> "__init__" ->
    call (mkObject c d) m args o = (Return (self', v), o') ->
    self' = mkObject c d.
Proof.
  intros Hc d m args self' v o o' Hm H.
  cbn in Hc.
  repeat (destruct Hc as [<-|Hc]; [ method_keeps_self H | ]).
  destruct Hc.
Qed.




(** * Interface segregation *)

Lemma exposed_methods_return (c : class) :
  In c (Isp.corrected ++ Lsp.corrected) ->
  forall (args : list string) (self : object) (out out' : stdout),
    instantiate c args out = (Return self, out') ->
    forall (m : string) (f : method),
      getattr_class c m = Some f ->
      isabstractmethod f = false
      /\ forall (margs : list string) (o : stdout),
          length margs = arity f -> returns (call self m margs o) = true.
Proof.
  intros Hc args self out out' H m f Hm.
  cbn in Hc.
  repeat (destruct Hc as [<-|Hc];
    [ destruct args as [|a [|b rest]]; cbn in H; try discriminate H;
      injection H as <- <-; exposed_method_returns Hm | ]).
  destruct Hc.
Qed.

(** A class without [ABC] among its ancestors has no abstract method. *)
Lemma plain_class_is_concrete name bases namespace :
  uses_abcmeta (Class name bases namespace) = false ->
  abstractmethods (Class name bases namespace) = [].
Proof.
  intro H. rewrite abstractmethods_Class, H. reflexivity.
Qed.

(** C5, as stated, fails in its second half: a provider declared against
    a capability it cannot support is constructed without error and
    raises when the operation is called.  A robot declared against
    [Eatable] whose [eat] has the body of [RobotWorker.eat], and a penguin
    declared against [FlyingBird] whose [fly] has the body of
    [Penguin.fly], are both constructed; [eat] and [fly] raise at the
    call. *)
Lemma C5_unsupported_provider_is_constructed :
  let RobotEater :=
    Class "RobotEater" [Isp.Eatable]
      [("eat", def0 (fun self => raise (mkExn "NotImplementedError" "Robôs não comem!")))] in
  let FlyingPenguin :=
    Class "FlyingPenguin" [Lsp.FlyingBird]
      [("fly", def0 (fun self =>
          name <- getattr self "name" ;;
          raise (mkExn "Exception" (name ++ " não pode voar! Pinguins não voam!"))))] in
  instantiate RobotEater [] [] = (Return (mkObject RobotEater []), [])
  /\ call (mkObject RobotEater []) "eat" [] []
     = (Raise (mkExn "NotImplementedError" "Robôs não comem!"), [])
  /\ instantiate FlyingPenguin ["Pinguim"] []
     = (Return (mkObject FlyingPenguin [("name", "Pinguim")]), [])
  /\ call (mkObject FlyingPenguin [("name", "Pinguim")]) "fly" [] []
     = (Raise (mkExn "Exception" "Pinguim não pode voar! Pinguins não voam!"), []).
Proof.
  intros RobotEater FlyingPenguin. repeat split; reflexivity.
Qed.

(** C5, amended.  On the corrected providers of the scripts the
    unsupported-operation error cannot be reached, and construction
    is refused only for an operation left undefined.
    - Every concrete class of the corrected designs (among them
      [RobotWorkerCorrect], [SimplePrinterCorrect], [PenguinCorrect] and
      [OstrichCorrect]) can be constructed, and every method that resolves
      on it is a concrete function that returns when called on an
      instance: none raises.
    - The operations on which the anti-patterns raise are not attributes
      of the corrected providers ([eat], [sleep]; [scan_document],
      [fax_document], [photocopy_document]; [fly]).
    - A class that derives from one of the segregated interfaces and does
      not define its operation (nor [__new__]) is refused when it is
      constructed ([TypeError], nothing printed).
    - A class that derives from one of those interfaces and defines the
      operation is constructed, whatever the body of the operation, and a
      call runs that body: a body that raises does so at the call.  A
      class that derives from [FlyingBird] and defines [fly] anew is
      constructed too, whatever the body.
    - So are the anti-patterns [RobotWorker], [SimplePrinter], [Penguin]
      and [Ostrich], which raise when [eat], [sleep], [scan_document] and
      [fly] are called. *)
Theorem C5_corrected_providers_expose_what_they_implement :
  (forall c : class,
      In c (Isp.corrected ++ Lsp.corrected) ->
      forall (args : list string) (self : object) (out out' : stdout),
        instantiate c args out = (Return self, out') ->
        forall (m : string) (f : method),
          getattr_class c m = Some f ->
          isabstractmethod f = false
          /\ forall (margs : list string) (o : stdout),
              length margs = arity f -> returns (call self m margs o) = true)
  /\ (forall (c : class) (out : stdout),
         In c Isp.corrected -> instantiate c [] out = (Return (mkObject c []), out))
  /\ (forall (c : class) (name : string) (out : stdout),
         In c Lsp.corrected ->
         instantiate c [name] out = (Return (mkObject c [("name", name)]), out))
  /\ (getattr_class Isp.RobotWorkerCorrect "eat" = None
      /\ getattr_class Isp.RobotWorkerCorrect "sleep" = None
      /\ getattr_class Isp.SimplePrinterCorrect "scan_document" = None
      /\ getattr_class Isp.SimplePrinterCorrect "fax_document" = None
      /\ getattr_class Isp.SimplePrinterCorrect "photocopy_document" = None
      /\ getattr_class Lsp.PenguinCorrect "fly" = None
      /\ getattr_class Lsp.OstrichCorrect "fly" = None)
  /\ (forall (K : class) (op name : string) (namespace : list (string * method))
             (args : list string) (out : stdout),
         In (K, op) Isp.capabilities ->
         assoc op namespace = None ->
         assoc "__new__" namespace = None ->
         exists e : exn,
           instantiate (Class name [K] namespace) args out = (Raise e, out)
           /\ exn_class e = "TypeError")
  /\ (forall (K : class) (op name : string) (f : method) (d : dict)
             (args : list string) (out : stdout),
         In (K, op) Isp.capabilities ->
         isabstractmethod f = false ->
         let c := Class name [K] [(op, f)] in
         instantiate c [] out = (Return (mkObject c []), out)
         /\ (length args = arity f ->
             call (mkObject c d) op args out
             = (r <- body f d args ;; ret (mkObject c (fst r), snd r)) out))
  /\ (forall (name bird : string) (f : method) (out : stdout),
         let c := Class name [Lsp.FlyingBird] [("fly", f)] in
         instantiate c [bird] out = (Return (mkObject c [("name", bird)]), out))
  /\ (forall out : stdout,
         instantiate Isp.RobotWorker [] out = (Return (mkObject Isp.RobotWorker []), out)
         /\ call (mkObject Isp.RobotWorker []) "eat" [] out
            = (Raise (mkExn "NotImplementedError" "Robôs não comem!"), out)
         /\ call (mkObject Isp.RobotWorker []) "sleep" [] out
            = (Raise (mkExn "NotImplementedError" "Robôs não dormem!"), out)
         /\ instantiate Isp.SimplePrinter [] out
            = (Return (mkObject Isp.SimplePrinter []), out)
         /\ call (mkObject Isp.SimplePrinter []) "scan_document" [] out
            = (Raise (mkExn "NotImplementedError" "Esta impressora não escaneia!"), out))
  /\ (forall (name : string) (out : stdout),
         instantiate Lsp.Penguin [name] out
         = (Return (mkObject Lsp.Penguin [("name", name)]), out)
         /\ call (mkObject Lsp.Penguin [("name", name)]) "fly" [] out
            = (Raise (mkExn "Exception" (name ++ " não pode voar! Pinguins não voam!")),
               out)
         /\ instantiate Lsp.Ostrich [name] out
            = (Return (mkObject Lsp.Ostrich [("name", name)]), out)
         /\ call (mkObject Lsp.Ostrich [("name", name)]) "fly" [] out
            = (Raise (mkExn "Exception" (name ++ " não pode voar! Avestruzes não voam!")),
               out)).
Proof.
  split; [exact exposed_methods_return|].
  split; [intros c out Hc; cbn in Hc; repeat (destruct Hc as [<-|Hc]; [reflexivity|]);
          destruct Hc|].
  split; [intros c name out Hc; cbn in Hc;
          repeat (destruct Hc as [<-|Hc]; [reflexivity|]); destruct Hc|].
  split; [repeat split; reflexivity|].
  split.
  { intros K op name namespace args out Hcap Hns _.
    apply (instantiate_abstract (Class name [K] namespace) op args out).
    apply (abstractmethods_inherited K op name [K] namespace);
      [| left; reflexivity |].
    - cbn in Hcap.
      repeat (destruct Hcap as [E|Hcap]; [injection E as <- <-; left; reflexivity|]).
      destruct Hcap.
    - unfold is_abstract_on. cbn [getattr_class]. rewrite Hns.
      cbn in Hcap.
      repeat (destruct Hcap as [E|Hcap]; [injection E as <- <-; reflexivity|]).
      destruct Hcap. }
  split.
  { intros K op name f d args out Hcap Hf c. subst c.
    destruct f as [abstract n b]. cbn in Hf. subst abstract.
    cbn in Hcap.
    repeat (destruct Hcap as [E|Hcap];
            [injection E as <- <-; split;
             [reflexivity
             | intro Hlen; unfold call; cbn in Hlen |- *;
               rewrite Hlen, Nat.eqb_refl; reflexivity]|]).
    destruct Hcap. }
  split.
  { intros name bird f out c. subst c.
    unfold instantiate.
    rewrite plain_class_is_concrete
      by (rewrite uses_abcmeta_Class; reflexivity).
    reflexivity. }
  split; [intros out; repeat split; reflexivity | intros name out; repeat split; reflexivity].
Qed.

Lemma C5_corrected_providers_expose_what_they_implement_witness :
  let work := def0 (fun self => print "🤖 Robô trabalhando 24/7..." ;; ret (self, None)) in
  let robot := mkObject Isp.RobotWorkerCorrect [] in
  (In (Isp.Eatable, "eat") Isp.capabilities
   /\ assoc "eat" [("work", work)] = None
   /\ assoc "__new__" [("work", work)] = None
   /\ exists e : exn,
        instantiate (Class "RobotEater" [Isp.Eatable] [("work", work)]) [] [] = (Raise e, [])
        /\ exn_class e = "TypeError")
  /\ (In Isp.RobotWorkerCorrect (Isp.corrected ++ Lsp.corrected)
      /\ instantiate Isp.RobotWorkerCorrect [] [] = (Return robot, [])
      /\ returns (call robot "work" [] []) = true).
Proof.
  intros work robot. split.
  - assert (Hcap : In (Isp.Eatable, "eat") Isp.capabilities)
      by (right; left; reflexivity).
    split; [exact Hcap|]. split; [reflexivity|]. split; [reflexivity|].
    exact (proj1 (proj2 (proj2 (proj2 (proj2
             C5_corrected_providers_expose_what_they_implement))))
             Isp.Eatable "eat" "RobotEater" [("work", work)] [] [] Hcap eq_refl eq_refl).
  - assert (Hc : In Isp.RobotWorkerCorrect (Isp.corrected ++ Lsp.corrected))
      by (cbn; right; left; reflexivity).
    split; [exact Hc|]. split; [reflexivity|].
    exact (proj2 (proj1 C5_corrected_providers_expose_what_they_implement
                    Isp.RobotWorkerCorrect Hc [] robot [] [] eq_refl "work" work eq_refl)
             [] [] eq_refl).
Defined.

(** * Further properties of the scripts *)

(** ** srp_exemple.py *)

(** X1. [User.get_info] gives back what the constructor received: the
    dictionary has the keys "name" and "email" and no other, bound to the
    two constructor arguments, so two users with the same [get_info] are
    the same user. *)
Theorem X1_get_info_round_trip :
  forall (name email : string) (out : stdout),
    exists info : list (string * string),
      Srp.User.get_info (Srp.User.__init__ name email) out = (Return info, out)
      /\ assoc "name" info = Some name
      /\ assoc "email" info = Some email
      /\ (forall key : string, key <> "name" -> key <> "email" -> assoc key info = None)
      /\ (forall other : Srp.User.t,
             Srp.User.get_info other out = (Return info, out) ->
             other = Srp.User.__init__ name email).
Proof.
  intros name email out. eexists. split; [reflexivity|].
  split; [reflexivity|]. split; [reflexivity|]. split.
  - intros key Hn He. cbn.
    destruct (String.eqb_spec key "name") as [->|_]; [contradiction|].
    destruct (String.eqb_spec key "email") as [->|_]; [contradiction|reflexivity].
  - intros [n e] H. cbn in H. unfold ret in H. injection H as -> ->. reflexivity.
Qed.

(** X2. Each service reads only the field it is responsible for:
    [UserRepository.save] and [ReportGenerator]'s console line depend on
    the user's name alone, and the two methods of [EmailService] on the
    e-mail alone. *)
Theorem X2_services_read_one_field :
  forall (u1 u2 : Srp.User.t) (message : string) (out : stdout),
    (Srp.User.name u1 = Srp.User.name u2 ->
     Srp.UserRepository.save Srp.UserRepository.__init__ u1 out
     = Srp.UserRepository.save Srp.UserRepository.__init__ u2 out
     /\ printed (Srp.ReportGenerator.generate_user_report Srp.ReportGenerator.__init__ u1 out)
        = printed (Srp.ReportGenerator.generate_user_report
                     Srp.ReportGenerator.__init__ u2 out))
    /\ (Srp.User.email u1 = Srp.User.email u2 ->
        Srp.EmailService.send_welcome_email Srp.EmailService.__init__ u1 out
        = Srp.EmailService.send_welcome_email Srp.EmailService.__init__ u2 out
        /\ Srp.EmailService.send_notification Srp.EmailService.__init__ u1 message out
           = Srp.EmailService.send_notification Srp.EmailService.__init__ u2 message out).
Proof.
  intros [n1 e1] [n2 e2] message out. cbn. split.
  - intros ->. split; reflexivity.
  - intros ->. split; reflexivity.
Qed.

Lemma X2_services_read_one_field_witness :
  let maria := Srp.User.__init__ "Maria Santos" "maria@email.com" in
  let homonym := Srp.User.__init__ "Maria Santos" "santos@email.com" in
  Srp.User.name maria = Srp.User.name homonym
  /\ Srp.UserRepository.save Srp.UserRepository.__init__ maria []
     = Srp.UserRepository.save Srp.UserRepository.__init__ homonym [].
Proof.
  intros maria homonym. split; [reflexivity|].
  exact (proj1 (proj1 (X2_services_read_one_field maria homonym "" []) eq_refl)).
Defined.

(** X3. The three services print, in the same order, what the three
    methods of [UserManagerBad] print for the same name and e-mail, each
    line with the check mark in front. *)
Theorem X3_split_services_print_the_same_lines :
  forall (name email : string) (out : stdout),
    let bad := Srp.UserManagerBad.__init__ name email in
    let user := Srp.User.__init__ name email in
    printed ((Srp.UserRepository.save Srp.UserRepository.__init__ user ;;
              Srp.EmailService.send_welcome_email Srp.EmailService.__init__ user ;;
              Srp.ReportGenerator.generate_user_report Srp.ReportGenerator.__init__ user)
               out)
    = (out ++ map (fun line => "✓ " ++ line)%string
                (printed ((Srp.UserManagerBad.save_to_database bad ;;
                           Srp.UserManagerBad.send_welcome_email bad ;;
                           Srp.UserManagerBad.generate_report bad) [])))%list.
Proof.
  intros name email out bad user. cbn. rewrite <- !app_assoc. reflexivity.
Qed.

(** ** ocp_example.py *)

(** X4. For the tags "premium", "vip" and "employee" the tag dispatcher
    [DiscountCalculatorBad.calculate_discount] returns, on every price,
    what [PremiumDiscount], [VIPDiscount] and [EmployeeDiscount] return.
    The two designs do not agree on regular customers: the dispatcher
    gives "regular" no discount, [RegularDiscount] gives 5 percent (on 100.0:
    0.0 against 5.0). *)
Theorem X4_dispatcher_and_strategies :
  (forall (price : float) (out : stdout),
      let bad := Ocp.DiscountCalculatorBad.__init__ in
      Ocp.DiscountCalculatorBad.calculate_discount bad "premium" price out
      = Ocp.Discount.calculate Ocp.PremiumDiscount price out
      /\ Ocp.DiscountCalculatorBad.calculate_discount bad "vip" price out
         = Ocp.Discount.calculate Ocp.VIPDiscount price out
      /\ Ocp.DiscountCalculatorBad.calculate_discount bad "employee" price out
         = Ocp.Discount.calculate Ocp.EmployeeDiscount price out)
  /\ Ocp.DiscountCalculatorBad.calculate_discount Ocp.DiscountCalculatorBad.__init__
       "regular" 100.0%float []
     = (Return 0.0%float, [])
  /\ Ocp.Discount.calculate Ocp.RegularDiscount 100.0%float [] = (Return 5.0%float, [])
  /\ ~ (forall (price : float) (out : stdout),
           Ocp.DiscountCalculatorBad.calculate_discount Ocp.DiscountCalculatorBad.__init__
             "regular" price out
           = Ocp.Discount.calculate Ocp.RegularDiscount price out).
Proof.
  split; [intros price out bad; repeat split; reflexivity|].
  split; [reflexivity|]. split; [reflexivity|].
  intro H. specialize (H 100.0%float []).
  apply (f_equal (returned_float 5.0%float)) in H. vm_compute in H. discriminate H.
Qed.

(** A loop-free computation followed by [return None] is that computation. *)
Lemma bind_ret_tt (m : M unit) (out : stdout) : (m ;; ret tt) out = m out.
Proof.
  unfold bind, ret. destruct (m out) as [[[]|e] out']; reflexivity.
Qed.

(** X5. [add_notifier] extends the broadcast at its end: after
    [add_notifier(n)], [notify_all] does what it did before and then
    calls [n.send] with the same message; when one of the earlier
    notifiers raises, [n] is not reached.  A service with nothing added
    yet broadcasts to nobody. *)
Theorem X5_add_notifier_extends_notify_all :
  forall (self : Ocp.NotificationService.t) (notifier : Ocp.Notifier.t)
         (message : string) (out : stdout),
    Ocp.NotificationService.notify_all
      (Ocp.NotificationService.add_notifier self notifier) message out
    = (Ocp.NotificationService.notify_all self message ;;
       Ocp.Notifier.send notifier message) out
    /\ Ocp.NotificationService.notify_all Ocp.NotificationService.__init__ message out
       = (Return tt, out).
Proof.
  intros self notifier message out. split; [|reflexivity].
  unfold Ocp.NotificationService.notify_all, Ocp.NotificationService.add_notifier.
  cbn [Ocp.NotificationService.notifiers].
  rewrite for_each_app. cbn [for_each]. unfold bind.
  destruct (for_each (Ocp.NotificationService.notifiers self)
              (fun n => Ocp.Notifier.send n message) out) as [[[]|e] out'];
    [|reflexivity].
  exact (bind_ret_tt (Ocp.Notifier.send notifier message) out').
Qed.

(** ** dip_example.py *)

(** X6. [NotificationService.notify] over senders bound as [xs ++ ys] is
    [notify] over [xs] followed by [notify] over [ys], with the second
    part skipped when the first raises; with no sender bound it returns
    and prints nothing. *)
Theorem X6_notify_splits_over_concatenation :
  forall (xs ys : list Dip.MessageSender.t) (message : string) (out : stdout),
    Dip.NotificationService.notify (Dip.NotificationService.__init__ (xs ++ ys)) message out
    = (Dip.NotificationService.notify (Dip.NotificationService.__init__ xs) message ;;
       Dip.NotificationService.notify (Dip.NotificationService.__init__ ys) message) out
    /\ Dip.NotificationService.notify (Dip.NotificationService.__init__ []) message out
       = (Return tt, out).
Proof.
  intros xs ys message out. split; [|reflexivity].
  apply (for_each_app xs ys (fun s => Dip.MessageSender.send s message) out).
Qed.

(** X7. [UserService.save_user] connects before it saves: when [connect]
    raises, the exception reaches the caller and [save_data] is not
    called; when [connect] returns, the call ends as [save_data] ends,
    started on the console [connect] left. *)
Theorem X7_save_user_connects_first :
  (forall (database : Dip.Database.t) (user : string) (out out' : stdout) (e : exn),
      Dip.Database.connect database out = (Raise e, out') ->
      Dip.UserService.save_user (Dip.UserService.__init__ database) user out
      = (Raise e, out'))
  /\ (forall (database : Dip.Database.t) (user : string) (out out' : stdout),
         Dip.Database.connect database out = (Return tt, out') ->
         Dip.UserService.save_user (Dip.UserService.__init__ database) user out
         = Dip.Database.save_data database user out').
Proof.
  split.
  - intros database user out out' e H.
    unfold Dip.UserService.save_user, bind. cbn. rewrite H. reflexivity.
  - intros database user out out' H.
    unfold Dip.UserService.save_user, bind. cbn. rewrite H. reflexivity.
Qed.

Lemma X7_save_user_connects_first_witness :
  let offline :=
    {| Dip.Database.connect := raise (mkExn "ConnectionError" "no route to host");
       Dip.Database.save_data := fun data => print ("saved " ++ data);
       Dip.Database.get_data := fun id => ret id |} in
  Dip.UserService.save_user (Dip.UserService.__init__ offline) "Ana Costa" []
  = (Raise (mkExn "ConnectionError" "no route to host"), []).
Proof.
  intro offline.
  exact (proj1 X7_save_user_connects_first offline "Ana Costa" [] []
           (mkExn "ConnectionError" "no route to host") eq_refl).
Defined.

(** X8. [OrderService.create_order] with any processor prints the order
    line first and then calls [process_payment] once.  When the processor
    returns, the order returns [None] after one more line: the success
    line if the processor returned [True], the failure line if it
    returned [False].  When the processor raises, the exception reaches
    the caller and neither line is printed. *)
Theorem X8_create_order_follows_the_processor :
  forall (processor : Dip.PaymentProcessor.t) (amount : float) (out : stdout),
    let ordered :=
      (out ++ [(nl ++ "🛒 Criando pedido de R$ " ++ format_2f amount ++ "...")%string])%list in
    (forall (success : bool) (out' : stdout),
        Dip.PaymentProcessor.process_payment processor amount ordered
        = (Return success, out') ->
        Dip.OrderService.create_order (Dip.OrderService.__init__ processor) amount out
        = (Return tt,
           (out' ++ [if success then "✓ Pedido criado com sucesso!"
                     else "❌ Falha ao processar pagamento!"])%list))
    /\ (forall (e : exn) (out' : stdout),
           Dip.PaymentProcessor.process_payment processor amount ordered = (Raise e, out') ->
           Dip.OrderService.create_order (Dip.OrderService.__init__ processor) amount out
           = (Raise e, out')).
Proof.
  intros processor amount out ordered. subst ordered. split.
  - intros success out' H.
    unfold Dip.OrderService.create_order, bind. unfold print at 1.
    cbn [Dip.OrderService.payment_processor Dip.OrderService.__init__].
    rewrite H. destruct success; reflexivity.
  - intros e out' H.
    unfold Dip.OrderService.create_order, bind. unfold print at 1.
    cbn [Dip.OrderService.payment_processor Dip.OrderService.__init__].
    rewrite H. reflexivity.
Qed.

Lemma X8_create_order_follows_the_processor_witness :
  let declining :=
    {| Dip.PaymentProcessor.process_payment := fun _ => print "card declined" ;; ret false |} in
  Dip.OrderService.create_order (Dip.OrderService.__init__ declining) 150.0%float []
  = (Return tt,
     [(nl ++ "🛒 Criando pedido de R$ 150.00...")%string;
      "card declined";
      "❌ Falha ao processar pagamento!"]).
Proof.
  intro declining.
  exact (proj1 (X8_create_order_follows_the_processor declining 150.0%float [])
           false _ eq_refl).
Defined.

(** X9. The injected services reproduce the hard-wired ones:
    [UserService] given a [MySQLDatabaseCorrect] saves a user exactly as
    [UserServiceBad] does, and [NotificationService] given the one sender
    [EmailSender] notifies exactly as [NotificationServiceBad] does, for
    every argument and console. *)
Theorem X9_injection_reproduces_the_hard_wired_services :
  forall (user message : string) (out : stdout),
    Dip.UserService.save_user (Dip.UserService.__init__ Dip.MySQLDatabaseCorrect) user out
    = Dip.UserServiceBad.save_user Dip.UserServiceBad.__init__ user out
    /\ Dip.NotificationService.notify
         (Dip.NotificationService.__init__ [Dip.EmailSender]) message out
       = Dip.NotificationServiceBad.notify Dip.NotificationServiceBad.__init__ message out.
Proof.
  intros user message out. split; reflexivity.
Qed.

(** ** lsp_exemple.py: shapes *)

(** X10. The rectangle contract.  On [Rectangle] and on
    [RectangleCorrect] the two setters are independent: each keeps the
    other dimension, they commute, the last value set for a dimension
    wins, and after [set_width(w)] and [set_height(h)], in either order
    and from any rectangle, [get_area] returns [w * h]. *)
Theorem X10_rectangle_setters_are_independent :
  (forall (self : Lsp.Rectangle.t) (w w' h : float) (out : stdout),
      Lsp.Rectangle._height (Lsp.Rectangle.set_width self w) = Lsp.Rectangle._height self
      /\ Lsp.Rectangle._width (Lsp.Rectangle.set_height self h) = Lsp.Rectangle._width self
      /\ Lsp.Rectangle.set_height (Lsp.Rectangle.set_width self w) h
         = Lsp.Rectangle.set_width (Lsp.Rectangle.set_height self h) w
      /\ Lsp.Rectangle.set_width (Lsp.Rectangle.set_width self w') w
         = Lsp.Rectangle.set_width self w
      /\ Lsp.Rectangle.get_area
           (Lsp.Rectangle.set_height (Lsp.Rectangle.set_width self w) h) out
         = (Return (w * h)%float, out)
      /\ Lsp.Rectangle.get_area
           (Lsp.Rectangle.set_width (Lsp.Rectangle.set_height self h) w) out
         = (Return (w * h)%float, out))
  /\ (forall (self : Lsp.RectangleCorrect.t) (w w' h : float) (out : stdout),
         Lsp.RectangleCorrect._height (Lsp.RectangleCorrect.set_width self w)
         = Lsp.RectangleCorrect._height self
         /\ Lsp.RectangleCorrect._width (Lsp.RectangleCorrect.set_height self h)
            = Lsp.RectangleCorrect._width self
         /\ Lsp.RectangleCorrect.set_height (Lsp.RectangleCorrect.set_width self w) h
            = Lsp.RectangleCorrect.set_width (Lsp.RectangleCorrect.set_height self h) w
         /\ Lsp.RectangleCorrect.set_width (Lsp.RectangleCorrect.set_width self w') w
            = Lsp.RectangleCorrect.set_width self w
         /\ Lsp.RectangleCorrect.get_area
              (Lsp.RectangleCorrect.set_height (Lsp.RectangleCorrect.set_width self w) h) out
            = (Return (w * h)%float, out)
         /\ Lsp.RectangleCorrect.get_area
              (Lsp.RectangleCorrect.set_width (Lsp.RectangleCorrect.set_height self h) w) out
            = (Return (w * h)%float, out)).
Proof.
  split; intros [width height] w w' h out; repeat split; reflexivity.
Qed.

(** X11. [Square] breaks that contract.  After either of its setters the
    width and the height are equal, whatever the square was before, and
    the setter called last decides both: after [set_width(w)] and then
    [set_height(h)], [get_area] returns [h * h], and in the other order
    [w * w].  With w = 5 and h = 4, the values of the script's check,
    [Rectangle] gives 20 and [Square] gives 16. *)
Theorem X11_square_setters_overwrite_both_sides :
  (forall (self : Lsp.Square.t) (w h : float) (out : stdout),
      Lsp.Rectangle._width (Lsp.Square.set_width self w)
      = Lsp.Rectangle._height (Lsp.Square.set_width self w)
      /\ Lsp.Rectangle._width (Lsp.Square.set_height self h)
         = Lsp.Rectangle._height (Lsp.Square.set_height self h)
      /\ Lsp.Square.set_height (Lsp.Square.set_width self w) h = Lsp.Square.set_height self h
      /\ Lsp.Square.set_width (Lsp.Square.set_height self h) w = Lsp.Square.set_width self w
      /\ Lsp.Square.get_area (Lsp.Square.set_height (Lsp.Square.set_width self w) h) out
         = (Return (h * h)%float, out)
      /\ Lsp.Square.get_area (Lsp.Square.set_width (Lsp.Square.set_height self h) w) out
         = (Return (w * w)%float, out))
  /\ (forall (self : Lsp.Rectangle.t) (out : stdout),
         Lsp.Rectangle.get_area
           (Lsp.Rectangle.set_height (Lsp.Rectangle.set_width self 5.0%float) 4.0%float) out
         = (Return 20.0%float, out)
         /\ Lsp.Square.get_area
              (Lsp.Square.set_height (Lsp.Square.set_width self 5.0%float) 4.0%float) out
            = (Return 16.0%float, out))
  /\ 16.0%float <> 20.0%float.
Proof.
  split; [|split].
  - intros [width height] w h out. repeat split; reflexivity.
  - intros [width height] out. split; reflexivity.
  - intro H. apply (f_equal (PrimFloat.eqb 16.0%float)) in H. vm_compute in H.
    discriminate H.
Qed.

(** X12. [Square] has no constructor of its own: it is constructed like
    [Rectangle], with a width and a height, and keeps them as given even
    when they differ.  The call with one argument raises [TypeError] and
    prints nothing, and so does every call with other than two
    arguments. *)
Theorem X12_square_is_constructed_like_a_rectangle :
  (forall (width height : float) (out : stdout),
      Lsp.Square.new [width; height] out = (Return (Lsp.Rectangle.mk width height), out)
      /\ Lsp.Square.get_area (Lsp.Rectangle.mk width height) out
         = (Return (width * height)%float, out))
  /\ (forall (side : float) (out : stdout),
         exists e : exn,
           Lsp.Square.new [side] out = (Raise e, out) /\ exn_class e = "TypeError")
  /\ (forall (args : list float) (out : stdout),
         length args <> 2 ->
         exists e : exn,
           Lsp.Square.new args out = (Raise e, out) /\ exn_class e = "TypeError").
Proof.
  split; [intros width height out; split; reflexivity|].
  split; [intros side out; eexists; split; reflexivity|].
  intros args out Hlen.
  destruct args as [|a [|b [|c rest]]]; cbn in Hlen; try contradiction;
    eexists; split; reflexivity.
Qed.

Lemma X12_square_is_constructed_like_a_rectangle_witness :
  length [0.0%float] <> 2
  /\ exists e : exn,
       Lsp.Square.new [0.0%float] [] = (Raise e, []) /\ exn_class e = "TypeError".
Proof.
  assert (H : length [0.0%float] <> 2) by (cbn; discriminate).
  split; [exact H|].
  exact (proj2 (proj2 X12_square_is_constructed_like_a_rectangle) [0.0%float] [] H).
Defined.

(** ** isp_exemple.py and the birds of lsp_exemple.py *)

(** X13. The classes that declare abstract methods cannot be
    instantiated, whatever the arguments: the constructor raises
    [TypeError] and prints nothing.  Every other class of
    [isp_exemple.py], the two anti-patterns included, is constructed
    without argument, and a bird is constructed with its name. *)
Theorem X13_interfaces_cannot_be_instantiated :
  (forall (c : class) (args : list string) (out : stdout),
      In c Isp.interfaces ->
      exists e : exn,
        instantiate c args out = (Raise e, out) /\ exn_class e = "TypeError")
  /\ (forall (c : class) (out : stdout),
         In c Isp.concrete -> instantiate c [] out = (Return (mkObject c []), out))
  /\ (forall (c : class) (name : string) (out : stdout),
         In c [Lsp.Bird; Lsp.Sparrow; Lsp.Penguin; Lsp.Ostrich;
               Lsp.BirdCorrect; Lsp.FlyingBird; Lsp.NonFlyingBird] ->
         instantiate c [name] out = (Return (mkObject c [("name", name)]), out)
         /\ exists e : exn, instantiate c [] out = (Raise e, out)
                            /\ exn_class e = "TypeError").
Proof.
  split; [|split].
  - intros c args out Hc. cbn in Hc.
    repeat (destruct Hc as [<-|Hc];
            [destruct args; eexists; split; reflexivity|]).
    destruct Hc.
  - intros c out Hc. cbn in Hc.
    repeat (destruct Hc as [<-|Hc]; [reflexivity|]). destruct Hc.
  - intros c name out Hc. cbn in Hc.
    repeat (destruct Hc as [<-|Hc];
            [split; [reflexivity | eexists; split; reflexivity]|]).
    destruct Hc.
Qed.

Lemma X13_interfaces_cannot_be_instantiated_witness :
  In Isp.Worker Isp.interfaces
  /\ exists e : exn,
       instantiate Isp.Worker [] [] = (Raise e, []) /\ exn_class e = "TypeError".
Proof.
  assert (H : In Isp.Worker Isp.interfaces) by (left; reflexivity).
  split; [exact H|].
  exact (proj1 X13_interfaces_cannot_be_instantiated Isp.Worker [] [] H).
Defined.

(** X14. Segregating the interfaces kept the behaviour of what is
    supported.  On every method of [HumanWorker], called with as many
    arguments as it has parameters, [HumanWorkerCorrect] prints and
    returns the same; so does [ModernPrinterCorrect] for [ModernPrinter],
    and [SimplePrinterCorrect] and [ScannerPrinter] on the methods they
    define.  The robot is the exception: [RobotWorkerCorrect.work] prints
    another line than [RobotWorker.work]. *)
Theorem X14_segregation_keeps_supported_behaviour :
  (forall (d : dict) (m : string) (f : method) (args : list string) (out : stdout),
      getattr_class Isp.HumanWorker m = Some f ->
      length args = arity f ->
      observe (call (mkObject Isp.HumanWorker d) m args out)
      = observe (call (mkObject Isp.HumanWorkerCorrect d) m args out))
  /\ (forall (d : dict) (m : string) (f : method) (args : list string) (out : stdout),
         getattr_class Isp.ModernPrinter m = Some f ->
         length args = arity f ->
         observe (call (mkObject Isp.ModernPrinter d) m args out)
         = observe (call (mkObject Isp.ModernPrinterCorrect d) m args out))
  /\ (forall (d : dict) (m : string) (f : method) (args : list string) (out : stdout),
         getattr_class Isp.SimplePrinterCorrect m = Some f ->
         length args = arity f ->
         observe (call (mkObject Isp.SimplePrinter d) m args out)
         = observe (call (mkObject Isp.SimplePrinterCorrect d) m args out))
  /\ (forall (d : dict) (m : string) (f : method) (args : list string) (out : stdout),
         getattr_class Isp.ScannerPrinter m = Some f ->
         length args = arity f ->
         observe (call (mkObject Isp.ModernPrinter d) m args out)
         = observe (call (mkObject Isp.ScannerPrinter d) m args out))
  /\ (forall (d : dict) (out : stdout),
         printed (call (mkObject Isp.RobotWorker d) "work" [] out)
         = (out ++ ["🤖 Robô trabalhando..."])%list
         /\ printed (call (mkObject Isp.RobotWorkerCorrect d) "work" [] out)
            = (out ++ ["🤖 Robô trabalhando 24/7..."])%list).
Proof.
  split; [|split; [|split; [|split]]].
  - intros d m f args out Hm Hlen. same_call Hm.
  - intros d m f args out Hm Hlen. same_call Hm.
  - intros d m f args out Hm Hlen. same_call Hm.
  - intros d m f args out Hm Hlen. same_call Hm.
  - intros d out. split; reflexivity.
Qed.

Lemma X14_segregation_keeps_supported_behaviour_witness :
  observe (call (mkObject Isp.ModernPrinter []) "scan_document" [] [])
  = observe (call (mkObject Isp.ModernPrinterCorrect []) "scan_document" [] [])
  /\ observe (call (mkObject Isp.ModernPrinterCorrect []) "scan_document" [] [])
     = (Return ([], Some "documento_escaneado.pdf"), ["📷 Escaneando documento..."]).
Proof.
  split; [|reflexivity].
  exact (proj1 (proj2 X14_segregation_keeps_supported_behaviour) [] "scan_document"
           (def0 (fun self =>
              print "📷 Escaneando documento..." ;;
              ret (self, Some "documento_escaneado.pdf")))
           [] [] eq_refl eq_refl).
Defined.

(** X15. Substitution in the bird hierarchies.  An instance of
    [SparrowCorrect] or [EagleCorrect] answers every method of
    [FlyingBird] as a [FlyingBird] of the same name does, and an instance
    of [PenguinCorrect] or [OstrichCorrect] every method of
    [NonFlyingBird] as a [NonFlyingBird] does: same text, same result,
    same attributes afterwards, whatever the arguments.  In the first
    hierarchy [Sparrow] answers like [Bird], while for every name
    [Bird.fly] returns and [Penguin.fly] and [Ostrich.fly] raise. *)
Theorem X15_corrected_birds_substitute_their_base :
  (forall (c : class) (d : dict) (name m : string) (args : list string) (out : stdout),
      In c [Lsp.SparrowCorrect; Lsp.EagleCorrect] ->
      assoc "name" d = Some name ->
      getattr_class Lsp.FlyingBird m <> None ->
      observe (call (mkObject c d) m args out)
      = observe (call (mkObject Lsp.FlyingBird d) m args out))
  /\ (forall (c : class) (d : dict) (name m : string) (args : list string) (out : stdout),
         In c [Lsp.PenguinCorrect; Lsp.OstrichCorrect] ->
         assoc "name" d = Some name ->
         getattr_class Lsp.NonFlyingBird m <> None ->
         observe (call (mkObject c d) m args out)
         = observe (call (mkObject Lsp.NonFlyingBird d) m args out))
  /\ (forall (d : dict) (name m : string) (args : list string) (out : stdout),
         assoc "name" d = Some name ->
         getattr_class Lsp.Bird m <> None ->
         observe (call (mkObject Lsp.Sparrow d) m args out)
         = observe (call (mkObject Lsp.Bird d) m args out))
  /\ (forall (name : string) (out : stdout),
         let d := [("name", name)] in
         returns (call (mkObject Lsp.Bird d) "fly" [] out) = true
         /\ returns (call (mkObject Lsp.Penguin d) "fly" [] out) = false
         /\ returns (call (mkObject Lsp.Ostrich d) "fly" [] out) = false).
Proof.
  split; [|split; [|split]].
  - intros c d name m args out Hc Hname Hm.
    destruct Hc as [<-|[<-|[]]]; same_bird_call Hm Hname.
  - intros c d name m args out Hc Hname Hm.
    destruct Hc as [<-|[<-|[]]]; same_bird_call Hm Hname.
  - intros d name m args out Hname Hm. same_bird_call Hm Hname.
  - intros name out d. repeat split; reflexivity.
Qed.

Lemma X15_corrected_birds_substitute_their_base_witness :
  let d := [("name", "Pinguim")] in
  observe (call (mkObject Lsp.PenguinCorrect d) "walk" [] [])
  = observe (call (mkObject Lsp.NonFlyingBird d) "walk" [] [])
  /\ observe (call (mkObject Lsp.NonFlyingBird d) "walk" [] [])
     = (Return (d, None), ["Pinguim está andando."]).
Proof.
  intro d. split; [|reflexivity].
  assert (Hc : In Lsp.PenguinCorrect [Lsp.PenguinCorrect; Lsp.OstrichCorrect])
    by (left; reflexivity).
  assert (Hm : getattr_class Lsp.NonFlyingBird "walk" <> None) by (cbn; discriminate).
  exact (proj1 (proj2 X15_corrected_birds_substitute_their_base)
           Lsp.PenguinCorrect d "Pinguim" "walk" [] [] Hc eq_refl Hm).
Defined.

(** ** Text that identifies its source *)

Lemma length_append (a b : string) :
  String.length (a ++ b) = String.length a + String.length b.
Proof.
  induction a as [|c a IH]; cbn; [reflexivity|]. rewrite IH. reflexivity.
Qed.

Lemma append_cancel_suffix (a b s : string) : a ++ s = b ++ s -> a = b.
Proof.
  revert b. induction a as [|c a IH]; intros [|c' b] H; cbn in H.
  - reflexivity.
  - apply (f_equal String.length) in H. cbn in H. rewrite length_append in H. lia.
  - apply (f_equal String.length) in H. cbn in H. rewrite length_append in H. lia.
  - injection H as -> H. rewrite (IH b H). reflexivity.
Qed.

(** X16. What [UserService.get_user] returns names the backend and the
    id.  With one of the three databases of the script, two calls return
    the same text only for the same id; with two different databases the
    texts differ whatever the ids. *)
Theorem X16_get_user_names_backend_and_id :
  (forall (database : Dip.Database.t) (id1 id2 : string) (out1 out2 : stdout),
      In database Dip.Database_subclasses ->
      outcome (Dip.UserService.get_user (Dip.UserService.__init__ database) id1 out1)
      = outcome (Dip.UserService.get_user (Dip.UserService.__init__ database) id2 out2) ->
      id1 = id2)
  /\ (forall (id1 id2 : string) (out1 out2 : stdout),
         let got database id out :=
           outcome (Dip.UserService.get_user (Dip.UserService.__init__ database) id out) in
         got Dip.MySQLDatabaseCorrect id1 out1 <> got Dip.PostgreSQLDatabase id2 out2
         /\ got Dip.MySQLDatabaseCorrect id1 out1 <> got Dip.MongoDBDatabase id2 out2
         /\ got Dip.PostgreSQLDatabase id1 out1 <> got Dip.MongoDBDatabase id2 out2).
Proof.
  split.
  - intros database id1 id2 out1 out2 Hdb H. cbn in Hdb.
    destruct Hdb as [<-|[<-|[<-|[]]]]; cbn -[append] in H; injection H as H;
      exact (append_cancel_suffix id1 id2 ")" H).
  - intros id1 id2 out1 out2 got. subst got.
    repeat split; cbn; intro H; injection H as H; discriminate H.
Qed.

Lemma X16_get_user_names_backend_and_id_witness :
  In Dip.MongoDBDatabase Dip.Database_subclasses
  /\ outcome (Dip.UserService.get_user
                (Dip.UserService.__init__ Dip.MongoDBDatabase) "789" [])
     = Return "Dados do MongoDB (ID: 789)"
  /\ "789" = "789".
Proof.
  assert (H : In Dip.MongoDBDatabase Dip.Database_subclasses)
    by (right; right; left; reflexivity).
  split; [exact H|]. split; [reflexivity|].
  exact (proj1 X16_get_user_names_backend_and_id Dip.MongoDBDatabase "789" "789"
           [] ["earlier line"] H eq_refl).
Defined.

(** X17. A channel prints its banner followed by the message as given.
    The three senders of [dip_example.py] print what the notifiers of the
    same channel print in [ocp_example.py]; for each of the four
    notifiers the message can be read back from the line (two messages
    give the same line only when they are equal); and two different
    channels never print the same line. *)
Theorem X17_channels_carry_the_message_verbatim :
  (forall (message : string) (out : stdout),
      Dip.MessageSender.send Dip.EmailSender message out
      = Ocp.Notifier.send Ocp.EmailNotifier message out
      /\ Dip.MessageSender.send Dip.SMSSender message out
         = Ocp.Notifier.send Ocp.SMSNotifier message out
      /\ Dip.MessageSender.send Dip.PushNotificationSender message out
         = Ocp.Notifier.send Ocp.PushNotifier message out)
  /\ (forall (notifier : Ocp.Notifier.t) (m1 m2 : string) (out : stdout),
         In notifier [Ocp.EmailNotifier; Ocp.SMSNotifier; Ocp.PushNotifier;
                      Ocp.WhatsAppNotifier] ->
         Ocp.Notifier.send notifier m1 out = Ocp.Notifier.send notifier m2 out ->
         m1 = m2)
  /\ (forall (m1 m2 : string) (out : stdout),
         let line notifier message := Ocp.Notifier.send notifier message out in
         line Ocp.EmailNotifier m1 <> line Ocp.SMSNotifier m2
         /\ line Ocp.EmailNotifier m1 <> line Ocp.PushNotifier m2
         /\ line Ocp.EmailNotifier m1 <> line Ocp.WhatsAppNotifier m2
         /\ line Ocp.SMSNotifier m1 <> line Ocp.PushNotifier m2
         /\ line Ocp.SMSNotifier m1 <> line Ocp.WhatsAppNotifier m2
         /\ line Ocp.PushNotifier m1 <> line Ocp.WhatsAppNotifier m2).
Proof.
  split; [intros message out; repeat split; reflexivity|]. split.
  - intros notifier m1 m2 out Hn H. cbn in Hn.
    destruct Hn as [<-|[<-|[<-|[<-|[]]]]]; cbn -[append] in H; unfold print in H;
      injection H as H; apply app_inv_head in H; injection H as H; exact H.
  - intros m1 m2 out line. subst line.
    repeat split; cbn; unfold print; intro H; injection H as H;
      apply app_inv_head in H; injection H as H; discriminate H.
Qed.

Lemma X17_channels_carry_the_message_verbatim_witness :
  In Ocp.WhatsAppNotifier
    [Ocp.EmailNotifier; Ocp.SMSNotifier; Ocp.PushNotifier; Ocp.WhatsAppNotifier]
  /\ Ocp.Notifier.send Ocp.WhatsAppNotifier "oi" [] = (Return tt, ["💬 Enviando WhatsApp: oi"])
  /\ "oi" = "oi".
Proof.
  assert (H : In Ocp.WhatsAppNotifier
                [Ocp.EmailNotifier; Ocp.SMSNotifier; Ocp.PushNotifier; Ocp.WhatsAppNotifier])
    by (right; right; right; left; reflexivity).
  split; [exact H|]. split; [reflexivity|].
  exact (proj1 (proj2 X17_channels_carry_the_message_verbatim)
           Ocp.WhatsAppNotifier "oi" "oi" [] H eq_refl).
Defined.
